(** * verify_migration.py: the migration checklist of CrossCopy

    A shallow embedding of [src/verify_migration.py] and the properties of
    its three functions [check_file_exists], [check_file_content] and
    [main].

    Python [str] values are kept as their UTF-8 bytes in Rocq [string]s:
    concatenation, equality and the substring test [x in y] agree on the
    two representations.  The file system is a finite map from paths to
    nodes; [print], [os.path.exists] and [open] leave an event in the
    trace of the process, in program order.

    Two things are taken from the environment and not from the script:
    the file system does not change while the script runs, and writing to
    standard output does not fail.  The [re] module is a parameter of the
    script; [Re.search] further down decides it on the fragment of the
    pattern language that the script uses. *)

From Stdlib Require Import String Ascii List Bool ZArith Lia.
From stdpp Require Import base option list strings gmap.
Import ListNotations.

Local Open Scope string_scope.
Local Open Scope Z_scope.
Local Open Scope list_scope.

(** ** Strings *)

(** The line feed, written [\n] in the Python literals. *)
Definition nl : string := String "010"%char EmptyString.

(** The double quote of the patterns of [main]. *)
Definition dq : string := String "034"%char EmptyString.

(** [s * n] of Python for a string [s]. *)
Fixpoint str_repeat (s : string) (n : nat) : string :=
  match n with
  | O => EmptyString
  | S n' => s +:+ str_repeat s n'
  end.

(** [needle in hay] of Python. *)
Fixpoint str_contains (needle hay : string) : bool :=
  String.prefix needle hay ||
  match hay with
  | EmptyString => false
  | String _ rest => str_contains needle rest
  end.

(** ** The world outside the script *)

(** What a path names.  [os.path.exists] is true of every node; [open]
    followed by [read] returns the decoded text of a [Text] node and
    raises on the two others. *)
Inductive node : Type :=
  | Text (content : string)
  | OpenFails (msg : string)
  | DecodeFails (msg : string).

(** The exceptions that the calls of the script can raise, all of them
    subclasses of [Exception]. *)
Inductive exn : Type :=
  | OSError (msg : string)
  | UnicodeDecodeError (msg : string)
  | re_error (msg : string).

(** [str(e)], as the f-string of the handler formats it. *)
Definition exn_str (e : exn) : string :=
  match e with
  | OSError msg => msg
  | UnicodeDecodeError msg => msg
  | re_error msg => msg
  end.

(** The outcome of [re.search(pattern, content, re.MULTILINE)]: a match
    object, [None], or [re.error] for a pattern that does not compile. *)
Inductive search_result : Type :=
  | Found
  | NotFound
  | BadPattern (msg : string).

(** [os.path.exists]: the path names a node. *)
Definition path_exists (disk : gmap string node) (path : string) : bool :=
  bool_decide (is_Some (disk !! path)).

(** What the process does to the outside, in order. *)
Inductive event : Type :=
  | Print (line : string)
  | Probe (path : string)
  | Open (path : string).

(** The printed lines of a trace: standard output. *)
Definition stdout (tr : list event) : list string :=
  omap (fun ev => match ev with Print line => Some line | _ => None end) tr.

(** The paths that a trace asked the file system about. *)
Definition probed (tr : list event) : list string :=
  omap (fun ev => match ev with Probe p => Some p | _ => None end) tr.

(** The paths that a trace opened for reading. *)
Definition opened (tr : list event) : list string :=
  omap (fun ev => match ev with Open p => Some p | _ => None end) tr.

(** ** The monad of the script: a trace, exceptions and [sys.exit] *)

Inductive outcome (A : Type) : Type :=
  | Ret (a : A)
  | Raise (e : exn)
  | Exit (code : Z).
Arguments Ret {A} a.
Arguments Raise {A} e.
Arguments Exit {A} code.

Definition M (A : Type) : Type := list event -> outcome A * list event.

Definition ret {A} (a : A) : M A := fun tr => (Ret a, tr).

Definition bind {A B} (m : M A) (k : A -> M B) : M B :=
  fun tr =>
    match m tr with
    | (Ret a, tr') => k a tr'
    | (Raise e, tr') => (Raise e, tr')
    | (Exit c, tr') => (Exit c, tr')
    end.

Notation "x <- m ;; k" := (bind m (fun x => k))
  (at level 100, m at next level, right associativity).
Notation "m ;; k" := (bind m (fun _ => k))
  (at level 100, right associativity).

Definition emit (ev : event) : M unit := fun tr => (Ret tt, tr ++ [ev]).

Definition print (line : string) : M unit := emit (Print line).

Definition raise {A} (e : exn) : M A := fun tr => (Raise e, tr).

(** [sys.exit(code)]: [SystemExit] is not an [Exception], no handler of
    the script catches it. *)
Definition sys_exit {A} (code : Z) : M A := fun tr => (Exit code, tr).

(** [try: body except Exception as e: handler(e)]. *)
Definition try_except {A} (body : M A) (handler : exn -> M A) : M A :=
  fun tr =>
    match body tr with
    | (Raise e, tr') => handler e tr'
    | r => r
    end.

(** The exit status of the process that runs [main()] as its last
    statement: 0 on a normal return, the argument of [sys.exit], and 1
    for an exception that nothing caught. *)
Definition exit_code {A} (o : outcome A) : Z :=
  match o with
  | Ret _ => 0
  | Raise _ => 1
  | Exit c => c
  end.

(** ** The script *)

Section Script.

(** The file system under the working directory, and the regular
    expression engine of the [re] module with the [re.MULTILINE] flag
    set: [re_search pattern content]. *)
Variable disk : gmap string node.
Variable re_search : string -> string -> search_result.

(** [os.path.exists(path)]. *)
Definition os_path_exists (path : string) : M bool :=
  emit (Probe path) ;; ret (path_exists disk path).

(** [with open(path, 'r', encoding='utf-8') as f: content = f.read()]. *)
Definition open_read (path : string) : M string :=
  emit (Open path) ;;
  match disk !! path with
  | Some (Text content) => ret content
  | Some (OpenFails msg) => raise (OSError msg)
  | Some (DecodeFails msg) => raise (UnicodeDecodeError msg)
  | None => raise (OSError ("[Errno 2] No such file or directory: '" +:+ path +:+ "'"))
  end.

(** [re.search(pattern, content, re.MULTILINE)] used as a condition. *)
Definition re_search_truth (pattern content : string) : M bool :=
  match re_search pattern content with
  | Found => ret true
  | NotFound => ret false
  | BadPattern msg => raise (re_error msg)
  end.

Definition check_file_exists (file_path description : string) : M bool :=
  found <- os_path_exists file_path ;;
  if found then
    print ("✅ " +:+ description +:+ ": " +:+ file_path) ;;
    ret true
  else
    print ("❌ " +:+ description +:+ ": " +:+ file_path +:+ " (不存在)") ;;
    ret false.

(** The first loop of [check_file_content]: one entry of [results] for
    each pair of [patterns]. *)
Fixpoint collect_results (content : string) (patterns : list (string * string))
    (results : list string) : M (list string) :=
  match patterns with
  | [] => ret results
  | (pattern, desc) :: rest =>
      hit <- re_search_truth pattern content ;;
      if hit then collect_results content rest (results ++ ["  ✅ " +:+ desc])
      else collect_results content rest (results ++ ["  ❌ " +:+ desc])
  end.

(** The second loop: [for result in results: print(result)]. *)
Fixpoint print_all (results : list string) : M unit :=
  match results with
  | [] => ret tt
  | result :: rest => print result ;; print_all rest
  end.

Definition check_file_content (file_path : string)
    (patterns : list (string * string)) (description : string) : M bool :=
  found <- os_path_exists file_path ;;
  if negb found then
    print ("❌ " +:+ description +:+ ": " +:+ file_path +:+ " (文件不存在)") ;;
    ret false
  else
    try_except
      (content <- open_read file_path ;;
       results <- collect_results content patterns [] ;;
       print ("📄 " +:+ description +:+ ": " +:+ file_path) ;;
       print_all results ;;
       ret (forallb (str_contains "✅") results))
      (fun e =>
         print ("❌ " +:+ description +:+ ": 读取文件失败 - " +:+ exn_str e) ;;
         ret false).

(** *** The tables of [main] *)

Definition cargo_patterns : list (string * string) :=
  [ ("libp2p.*=.*{.*version.*=.*" +:+ dq +:+ "0\.53" +:+ dq, "libp2p 依赖已添加");
    (dq +:+ "tcp" +:+ dq, "libp2p TCP 功能已配置");
    ("futures.*=.*" +:+ dq +:+ "0\.3" +:+ dq, "futures 依赖已更新") ].

Definition config_patterns : list (string * string) :=
  [ ("pub enable_mdns: bool", "enable_mdns 字段已添加");
    ("pub mdns_discovery_interval: u64", "mdns_discovery_interval 字段已添加");
    ("pub enable_quic: bool", "enable_quic 字段已添加");
    ("pub idle_connection_timeout: u64", "idle_connection_timeout 字段已添加") ].

Definition error_patterns : list (string * string) :=
  [ ("MdnsDiscoveryFailed\(String\)", "MdnsDiscoveryFailed 错误已添加");
    ("Libp2p\(String\)", "Libp2p 错误已添加");
    ("PeerNotFound\(String\)", "PeerNotFound 错误已添加");
    ("Transport\(String\)", "Transport 错误已添加") ].

Definition connection_patterns : list (string * string) :=
  [ ("use libp2p::{PeerId, Multiaddr}", "libp2p 类型已导入");
    ("pub peer_id: Option<PeerId>", "peer_id 字段已添加");
    ("pub address: Option<Multiaddr>", "address 字段已添加");
    ("pub message_sender: Option<mpsc::UnboundedSender<Message>>", "message_sender 字段已添加") ].

Definition manager_patterns : list (string * string) :=
  [ ("use libp2p::", "libp2p 已导入");
    ("CrossCopyBehaviour", "CrossCopyBehaviour 已定义");
    ("mdns::Event::Discovered", "mDNS 发现事件处理");
    ("SwarmEvent::", "Swarm 事件处理") ].

Definition doc_files : list (string * list (string * string)) :=
  [ ("doc/technical-specification.md",
      [ ("libp2p 协议栈", "技术规格已更新为 libp2p");
        ("mDNS 发现", "mDNS 发现机制已文档化") ]);
    ("doc/api-reference.md",
      [ ("enable_mdns: bool", "API 文档已更新");
        ("mdns_discovery_interval: u64", "mDNS 配置已文档化") ]);
    ("doc/architecture.md",
      [ ("libp2p.*点对点网络通信", "架构文档已更新");
        ("mDNS 自动节点发现", "mDNS 架构已说明") ]) ].

Definition test_files : list string :=
  [ "tests/network_libp2p_test.rs";
    "examples/libp2p_network_demo.rs";
    "NETWORK_MIGRATION.md" ].

(** *** The two loops of [main] *)

(** [for file_path, patterns in doc_files: all_checks_passed &= ...]. *)
Fixpoint check_doc_files (files : list (string * list (string * string)))
    (all_checks_passed : bool) : M bool :=
  match files with
  | [] => ret all_checks_passed
  | (file_path, patterns) :: rest =>
      ok <- check_file_content file_path patterns ("文档: " +:+ file_path) ;;
      check_doc_files rest (all_checks_passed && ok)
  end.

(** [for file_path in test_files: all_checks_passed &= ...]. *)
Fixpoint check_test_files (files : list string) (all_checks_passed : bool) : M bool :=
  match files with
  | [] => ret all_checks_passed
  | file_path :: rest =>
      ok <- check_file_exists file_path "测试/示例文件" ;;
      check_test_files rest (all_checks_passed && ok)
  end.

(** *** [main] *)

Definition main : M unit :=
  print "CrossCopy 网络层迁移验证" ;;
  print (str_repeat "=" 40) ;;
  found <- os_path_exists "Cargo.toml" ;;
  (if negb found then
     print "❌ 请在项目根目录运行此脚本" ;;
     sys_exit 1
   else ret tt) ;;
  let all_checks_passed := true in
  print (nl +:+ "1. 检查依赖更新") ;;
  ok <- check_file_content "Cargo.toml" cargo_patterns "Cargo.toml 依赖配置" ;;
  let all_checks_passed := all_checks_passed && ok in
  print (nl +:+ "2. 检查配置结构更新") ;;
  ok <- check_file_content "src/config/mod.rs" config_patterns "NetworkConfig 结构" ;;
  let all_checks_passed := all_checks_passed && ok in
  print (nl +:+ "3. 检查网络错误类型更新") ;;
  ok <- check_file_content "src/network/mod.rs" error_patterns "网络错误类型" ;;
  let all_checks_passed := all_checks_passed && ok in
  print (nl +:+ "4. 检查连接结构更新") ;;
  ok <- check_file_content "src/network/connection.rs" connection_patterns "Connection 结构" ;;
  let all_checks_passed := all_checks_passed && ok in
  print (nl +:+ "5. 检查网络管理器更新") ;;
  ok <- check_file_content "src/network/manager.rs" manager_patterns "NetworkManager 实现" ;;
  let all_checks_passed := all_checks_passed && ok in
  print (nl +:+ "6. 检查文档更新") ;;
  all_checks_passed <- check_doc_files doc_files all_checks_passed ;;
  print (nl +:+ "7. 检查测试和示例文件") ;;
  all_checks_passed <- check_test_files test_files all_checks_passed ;;
  print (nl +:+ str_repeat "=" 40) ;;
  if all_checks_passed then
    print "🎉 所有检查通过！网络层迁移已完成" ;;
    print (nl +:+ "迁移总结:") ;;
    print "✅ WebSocket → libp2p 迁移完成" ;;
    print "✅ mDNS 自动发现已实现" ;;
    print "✅ 配置结构已更新" ;;
    print "✅ 文档已同步更新" ;;
    print "✅ 测试和示例已创建" ;;
    print (nl +:+ "下一步:") ;;
    print "1. 运行 'cargo check' 检查编译" ;;
    print "2. 运行 'cargo test' 执行测试" ;;
    print "3. 运行 'cargo run --example libp2p_network_demo' 查看演示" ;;
    ret tt
  else
    print "⚠️  部分检查未通过，请检查上述问题" ;;
    sys_exit 1.

End Script.

(** ** An instance of [re_search] for the patterns of the script

    The patterns of [main] are written with literal characters, escaped
    punctuation, [.] and [.*].  [Re.search] decides [re.search] with
    [re.MULTILINE] for that fragment of the pattern language, extended
    with [+], [?], [^] and [$].  It is the engine at which the properties
    below are run on concrete directories; the properties themselves hold
    for every engine. *)

Module Re.

Inductive atom : Type :=
  | Lit (cp : string)   (* one character, as its UTF-8 bytes *)
  | Dot                 (* any character but the line feed *)
  | Bol                 (* [^] under MULTILINE *)
  | Eol.                (* [$] under MULTILINE *)

Inductive quant : Type := One | Star | Plus | Opt.

Definition item : Type := atom * quant.

Definition byte (c : ascii) : N := N_of_ascii c.

(** A byte [10xxxxxx], which continues a character. *)
Definition is_cont (c : ascii) : bool :=
  (128 <=? byte c)%N && (byte c <? 192)%N.

Definition is_digit (c : ascii) : bool :=
  (48 <=? byte c)%N && (byte c <=? 57)%N.

Definition is_alnum (c : ascii) : bool :=
  is_digit c
  || ((65 <=? byte c)%N && (byte c <=? 90)%N)
  || ((97 <=? byte c)%N && (byte c <=? 122)%N).

Definition is_nl (c : ascii) : bool := (byte c =? 10)%N.

(** A [{] opens a counted repeat only when digits, an optional comma,
    digits and a [}] follow; it is a literal brace before any other
    character.  The fragment keeps the second case. *)
Definition brace_is_literal (rest : string) : bool :=
  match rest with
  | EmptyString => true
  | String c _ => negb (is_digit c || (byte c =? 44)%N)
  end.

(** The parser: [acc] holds the items read so far, last one first;
    [esc] is set after a backslash.  [None] stands for what [re]
    rejects and for what the fragment leaves out (groups, classes,
    alternation, counted and lazy repeats, escapes of letters and
    digits). *)
Fixpoint parse_from (pattern : string) (esc : bool) (acc : list item)
    : option (list item) :=
  match pattern with
  | EmptyString => if esc then None else Some (rev acc)
  | String c rest =>
      if esc then
        if (byte c <? 128)%N && negb (is_alnum c)
        then parse_from rest false ((Lit (String c EmptyString), One) :: acc)
        else None
      else if is_cont c then
        match acc with
        | (Lit cp, One) :: acc' =>
            parse_from rest false ((Lit (cp +:+ String c EmptyString), One) :: acc')
        | _ => None
        end
      else
        match c with
        | "\"%char => parse_from rest true acc
        | "."%char => parse_from rest false ((Dot, One) :: acc)
        | "^"%char => parse_from rest false ((Bol, One) :: acc)
        | "$"%char => parse_from rest false ((Eol, One) :: acc)
        | "*"%char | "+"%char | "?"%char =>
            match acc with
            | (Lit cp, One) :: acc' =>
                parse_from rest false
                  ((Lit cp, match c with "*"%char => Star | "+"%char => Plus | _ => Opt end) :: acc')
            | (Dot, One) :: acc' =>
                parse_from rest false
                  ((Dot, match c with "*"%char => Star | "+"%char => Plus | _ => Opt end) :: acc')
            | _ => None
            end
        | "{"%char =>
            if brace_is_literal rest
            then parse_from rest false ((Lit (String c EmptyString), One) :: acc)
            else None
        | "["%char | "("%char | ")"%char | "|"%char => None
        | _ => parse_from rest false ((Lit (String c EmptyString), One) :: acc)
        end
  end.

Definition parse (pattern : string) : option (list item) :=
  parse_from pattern false [].

Fixpoint drop_bytes (n : nat) (s : string) : string :=
  match n, s with
  | S n', String _ rest => drop_bytes n' rest
  | _, _ => s
  end.

Fixpoint drop_cont (s : string) : string :=
  match s with
  | String c rest => if is_cont c then drop_cont rest else s
  | EmptyString => s
  end.

(** One atom at the head of [s].  [bol] tells whether [s] starts the
    text or follows a line feed; the result carries the same flag for
    what is left. *)
Definition atom_step (a : atom) (bol : bool) (s : string) : option (bool * string) :=
  match a with
  | Lit cp =>
      if String.prefix cp s
      then Some (String.eqb cp nl, drop_bytes (String.length cp) s)
      else None
  | Dot =>
      match s with
      | String c rest =>
          if is_nl c || is_cont c then None else Some (false, drop_cont rest)
      | EmptyString => None
      end
  | Bol => if bol then Some (bol, s) else None
  | Eol =>
      match s with
      | EmptyString => Some (bol, s)
      | String c _ => if is_nl c then Some (bol, s) else None
      end
  end.

Definition with_atom (a : atom) (k : bool -> string -> bool) (bol : bool) (s : string) : bool :=
  match atom_step a bol s with
  | Some (bol', s') => k bol' s'
  | None => false
  end.

(** Zero or more times [a], then [k]; every round takes at least one
    byte, so the length of the text bounds the rounds. *)
Fixpoint star (fuel : nat) (a : atom) (k : bool -> string -> bool)
    (bol : bool) (s : string) : bool :=
  k bol s ||
  match fuel with
  | O => false
  | S fuel' => with_atom a (star fuel' a k) bol s
  end.

Fixpoint match_here (fuel : nat) (items : list item) (bol : bool) (s : string) : bool :=
  match items with
  | [] => true
  | (a, q) :: rest =>
      match q with
      | One => with_atom a (match_here fuel rest) bol s
      | Opt => with_atom a (match_here fuel rest) bol s || match_here fuel rest bol s
      | Star => star fuel a (match_here fuel rest) bol s
      | Plus => with_atom a (star fuel a (match_here fuel rest)) bol s
      end
  end.

(** A match that starts at the head of [s] or further to the right. *)
Fixpoint search_from (fuel : nat) (items : list item) (bol : bool) (s : string) : bool :=
  match_here fuel items bol s ||
  match s with
  | EmptyString => false
  | String c rest => search_from fuel items (is_nl c) rest
  end.

(** [re.search] with [re.MULTILINE] on the fragment.  For a pattern that
    [parse] does not read, the answer is [BadPattern] with a message of
    this file: it is not the text of an [re.error], and it says nothing
    of what [re] does with a pattern that the fragment leaves out. *)
Definition search (pattern content : string) : search_result :=
  match parse pattern with
  | Some items =>
      if search_from (String.length content) items true content then Found else NotFound
  | None => BadPattern "pattern outside the fragment"
  end.

End Re.

(** ** The checklist of [main] as data *)

(** The two kinds of check that [main] performs. *)
Inductive check : Type :=
  | ContentCheck (path : string) (requirements : list (string * string)) (description : string)
  | ExistenceCheck (path : string) (description : string).

(** The numbered sections of [main], in program order: the title that is
    printed and the calls that follow it. *)
Definition sections : list (string * list check) :=
  [ ("1. 检查依赖更新",
      [ContentCheck "Cargo.toml" cargo_patterns "Cargo.toml 依赖配置"]);
    ("2. 检查配置结构更新",
      [ContentCheck "src/config/mod.rs" config_patterns "NetworkConfig 结构"]);
    ("3. 检查网络错误类型更新",
      [ContentCheck "src/network/mod.rs" error_patterns "网络错误类型"]);
    ("4. 检查连接结构更新",
      [ContentCheck "src/network/connection.rs" connection_patterns "Connection 结构"]);
    ("5. 检查网络管理器更新",
      [ContentCheck "src/network/manager.rs" manager_patterns "NetworkManager 实现"]);
    ("6. 检查文档更新",
      map (fun doc : string * list (string * string) =>
             ContentCheck doc.1 doc.2 ("文档: " +:+ doc.1)) doc_files);
    ("7. 检查测试和示例文件",
      map (fun file_path => ExistenceCheck file_path "测试/示例文件") test_files) ].

Definition checklist : list check := concat (map snd sections).

(** The lines that frame the report. *)
Definition title_lines : list string :=
  [ "CrossCopy 网络层迁移验证"; str_repeat "=" 40 ].

Definition precondition_error : string := "❌ 请在项目根目录运行此脚本".

Definition confirmations : list string :=
  [ "✅ WebSocket → libp2p 迁移完成";
    "✅ mDNS 自动发现已实现";
    "✅ 配置结构已更新";
    "✅ 文档已同步更新";
    "✅ 测试和示例已创建" ].

Definition next_steps : list string :=
  [ "1. 运行 'cargo check' 检查编译";
    "2. 运行 'cargo test' 执行测试";
    "3. 运行 'cargo run --example libp2p_network_demo' 查看演示" ].

Definition success_banner : list string :=
  [ "🎉 所有检查通过！网络层迁移已完成"; nl +:+ "迁移总结:" ]
  ++ confirmations ++ [ nl +:+ "下一步:" ] ++ next_steps.

Definition warning_line : string := "⚠️  部分检查未通过，请检查上述问题".

Section Report.

Variable disk : gmap string node.
Variable re_search : string -> string -> search_result.

(** One check, run as [main] runs it. *)
Definition run_check (c : check) : M bool :=
  match c with
  | ContentCheck path requirements description =>
      check_file_content disk re_search path requirements description
  | ExistenceCheck path description =>
      check_file_exists disk path description
  end.

(** What a check returns and what it does, observed on a process that
    has done nothing yet. *)
Definition passes (c : check) : bool :=
  match (run_check c []).1 with
  | Ret b => b
  | _ => false
  end.

Definition events_of (c : check) : list event := (run_check c []).2.

(** The results of the checks of [main], in program order. *)
Definition outcomes : list bool := map passes checklist.

(** The precondition of [main]. *)
Definition at_project_root : bool := path_exists disk "Cargo.toml".

(** The trace of the part of [main] that lies between the precondition
    and the summary. *)
Definition section_events (s : string * list check) : list event :=
  Print (nl +:+ s.1) :: concat (map events_of s.2).

Definition body_events : list event := concat (map section_events sections).

Definition prelude_events : list event :=
  map Print title_lines ++ [Probe "Cargo.toml"].

(** Whether the pattern of a requirement is found in [content]. *)
Definition hit (content : string) (req : string * string) : bool :=
  match re_search req.1 content with
  | Found => true
  | _ => false
  end.

(** The line of [results] that a requirement yields on [content]. *)
Definition result_line (content : string) (req : string * string) : string :=
  match re_search req.1 content with
  | Found => "  ✅ " +:+ req.2
  | _ => "  ❌ " +:+ req.2
  end.

(** The message of the first pattern that [re] rejects, if any. *)
Fixpoint first_bad (content : string) (patterns : list (string * string)) : option string :=
  match patterns with
  | [] => None
  | (pattern, _) :: rest =>
      match re_search pattern content with
      | BadPattern msg => Some msg
      | _ => first_bad content rest
      end
  end.

(** The body of the [try] of [check_file_content] on a node: the lines
    of [results], or the exception that leaves the block. *)
Definition read_and_match (nd : node) (patterns : list (string * string)) : list string + exn :=
  match nd with
  | Text content =>
      match first_bad content patterns with
      | Some msg => inr (re_error msg)
      | None => inl (map (result_line content) patterns)
      end
  | OpenFails msg => inr (OSError msg)
  | DecodeFails msg => inr (UnicodeDecodeError msg)
  end.

Definition content_report (path : string) (patterns : list (string * string))
    (description : string) : bool * list event :=
  match disk !! path with
  | None =>
      (false,
       [Probe path; Print ("❌ " +:+ description +:+ ": " +:+ path +:+ " (文件不存在)")])
  | Some nd =>
      match read_and_match nd patterns with
      | inl lines =>
          (forallb (str_contains "✅") lines,
           [Probe path; Open path; Print ("📄 " +:+ description +:+ ": " +:+ path)]
           ++ map Print lines)
      | inr e =>
          (false,
           [Probe path; Open path;
            Print ("❌ " +:+ description +:+ ": 读取文件失败 - " +:+ exn_str e)])
      end
  end.

Definition existence_report (path description : string) : bool * list event :=
  if path_exists disk path
  then (true, [Probe path; Print ("✅ " +:+ description +:+ ": " +:+ path)])
  else (false, [Probe path; Print ("❌ " +:+ description +:+ ": " +:+ path +:+ " (不存在)")]).

End Report.

(** The path that a check looks at. *)
Definition check_path (c : check) : string :=
  match c with
  | ContentCheck path _ _ => path
  | ExistenceCheck path _ => path
  end.

(** ** Directories on which the script is run below *)

(** The lines of a text file, each one ended by a line feed. *)
Fixpoint text_of (lines : list string) : string :=
  match lines with
  | [] => EmptyString
  | line :: rest => line +:+ nl +:+ text_of rest
  end.

Definition cargo_toml (futures_version : string) : string :=
  text_of
    [ "[dependencies]";
      "libp2p = { version = " +:+ dq +:+ "0.53" +:+ dq +:+ ", features = ["
        +:+ dq +:+ "tcp" +:+ dq +:+ ", " +:+ dq +:+ "mdns" +:+ dq +:+ "] }";
      "futures = " +:+ dq +:+ futures_version +:+ dq ].

Definition api_reference : string :=
  text_of [ "enable_mdns: bool"; "mdns_discovery_interval: u64" ].

(** A project root in which the migration is complete. *)
Definition migrated : gmap string node :=
  list_to_map
    [ ("Cargo.toml", Text (cargo_toml "0.3"));
      ("src/config/mod.rs", Text (text_of
         [ "pub struct NetworkConfig {";
           "    pub enable_mdns: bool,";
           "    pub mdns_discovery_interval: u64,";
           "    pub enable_quic: bool,";
           "    pub idle_connection_timeout: u64,";
           "}" ]));
      ("src/network/mod.rs", Text (text_of
         [ "pub enum NetworkError {";
           "    MdnsDiscoveryFailed(String),";
           "    Libp2p(String),";
           "    PeerNotFound(String),";
           "    Transport(String),";
           "}" ]));
      ("src/network/connection.rs", Text (text_of
         [ "use libp2p::{PeerId, Multiaddr};";
           "pub struct Connection {";
           "    pub peer_id: Option<PeerId>,";
           "    pub address: Option<Multiaddr>,";
           "    pub message_sender: Option<mpsc::UnboundedSender<Message>>,";
           "}" ]));
      ("src/network/manager.rs", Text (text_of
         [ "use libp2p::swarm::SwarmEvent;";
           "pub struct CrossCopyBehaviour { mdns: mdns::tokio::Behaviour }";
           "    SwarmEvent::Behaviour(mdns::Event::Discovered(list)) => {}" ]));
      ("doc/technical-specification.md", Text (text_of
         [ "## libp2p 协议栈"; "## mDNS 发现" ]));
      ("doc/api-reference.md", Text api_reference);
      ("doc/architecture.md", Text (text_of
         [ "基于 libp2p 的点对点网络通信"; "mDNS 自动节点发现" ]));
      ("tests/network_libp2p_test.rs", Text "");
      ("examples/libp2p_network_demo.rs", Text "");
      ("NETWORK_MIGRATION.md", Text "") ].

(** The same project with the old version of [futures] in its manifest. *)
Definition old_futures : gmap string node :=
  <["Cargo.toml" := Text (cargo_toml "0.1")]> migrated.

(** The same project without its migration notes. *)
Definition no_notes : gmap string node :=
  delete "NETWORK_MIGRATION.md" migrated.

(** The same project with a configuration module that cannot be opened,
    and with one that is not UTF-8. *)
Definition locked_config : gmap string node :=
  <["src/config/mod.rs" :=
      OpenFails "[Errno 13] Permission denied: 'src/config/mod.rs'"]> migrated.

Definition latin1_config : gmap string node :=
  <["src/config/mod.rs" :=
      DecodeFails "'utf-8' codec can't decode byte 0xe9 in position 3: invalid continuation byte"]>
    migrated.

(** A directory that is not a project root. *)
Definition elsewhere : gmap string node :=
  list_to_map [ ("README.md", Text "CrossCopy") ].

(** A requirement whose description carries the mark of success. *)
Definition marked_requirement : list (string * string) :=
  [ ("quic", "✅ QUIC 已启用") ].

(** Two requirements on the API reference: the first one is met, the
    second one is not and is described with the mark of success. *)
Definition api_requirements : list (string * string) :=
  [ ("enable_mdns: bool", "API 文档已更新");
    ("enable_quic: bool", "✅ QUIC 已文档化") ].

(** The same project next to a file that no check looks at. *)
Definition with_readme : gmap string node :=
  <["README.md" := Text "CrossCopy"]> migrated.

(** The same project with a directory in the place of its manifest. *)
Definition manifest_is_directory : gmap string node :=
  <["Cargo.toml" := OpenFails "[Errno 21] Is a directory: 'Cargo.toml'"]> migrated.

(** ** More views of the checklist *)

(** The line that a check prints on a path that does not exist. *)
Definition missing_line (c : check) : string :=
  match c with
  | ContentCheck path _ description =>
      "❌ " +:+ description +:+ ": " +:+ path +:+ " (文件不存在)"
  | ExistenceCheck path description =>
      "❌ " +:+ description +:+ ": " +:+ path +:+ " (不存在)"
  end.

(** The paths of the checks of content among [cs], in order. *)
Definition content_paths (cs : list check) : list string :=
  omap (fun c => match c with
                 | ContentCheck path _ _ => Some path
                 | ExistenceCheck _ _ => None
                 end) cs.

(** What a check asks of the directory: a file that can be read and in
    which every pattern is found, or a path that exists. *)
Definition met (disk : gmap string node)
    (re_search : string -> string -> search_result) (c : check) : Prop :=
  match c with
  | ContentCheck path requirements _ =>
      exists content,
        disk !! path = Some (Text content)
        /\ Forall (fun req : string * string => re_search req.1 content = Found)
             requirements
  | ExistenceCheck path _ => is_Some (disk !! path)
  end.

(** No description of the requirements of a check holds the mark. *)
Definition plain (c : check) : bool :=
  match c with
  | ContentCheck _ requirements _ =>
      forallb (fun req : string * string => negb (str_contains "✅" req.2)) requirements
  | ExistenceCheck _ _ => true
  end.

(** The pattern of a requirement is one that [re] accepts on [content]. *)
Definition accepted (re_search : string -> string -> search_result)
    (content : string) (req : string * string) : bool :=
  match re_search req.1 content with
  | BadPattern _ => false
  | _ => true
  end.

(** ** The nine checks of a run *)

(** The eight checks of content of [main], one for each file that is
    read: the five of the sections 1 to 5 and the three of the loop over
    [doc_files]. *)
Definition content_checks : list check := concat (map snd (take 6 sections)).

(** The loop over [test_files] as one check: what it leaves in
    [all_checks_passed] when it starts from [True]. *)
Definition existence_loop_passes (disk : gmap string node) : bool :=
  match (check_test_files disk test_files true []).1 with
  | Ret b => b
  | _ => false
  end.

(** The results of the nine checks, in program order. *)
Definition nine_outcomes (disk : gmap string node)
    (re_search : string -> string -> search_result) : list bool :=
  map (passes disk re_search) content_checks ++ [existence_loop_passes disk].

(** ** The file system as a run sees it *)

(** The calls of a trace to the file system, in order. *)
Definition fs_events (tr : list event) : list event :=
  List.filter (fun ev => match ev with Print _ => false | _ => true end) tr.

(** The calls of one check: the test of existence of its path and, for
    a check of content on a path that exists, the opening of that path
    right after. *)
Definition fs_events_of (disk : gmap string node) (c : check) : list event :=
  match c with
  | ContentCheck path _ _ =>
      if path_exists disk path then [Probe path; Open path] else [Probe path]
  | ExistenceCheck path _ => [Probe path]
  end.

(** * Properties *)

(** ** How the monad runs *)

Lemma print_run (line : string) (tr : list event) :
  print line tr = (Ret tt, tr ++ [Print line]).
Proof. reflexivity. Qed.

Lemma bind_run {A B} (m : M A) (k : A -> M B) (tr tr' : list event) (a : A) :
  m tr = (Ret a, tr') -> bind m k tr = k a tr'.
Proof. intros Hm. unfold bind. rewrite Hm. reflexivity. Qed.

(** Traces are compared with their appends nested to the right. *)
Ltac norm_trace :=
  repeat (progress (rewrite <- ?app_assoc, ?app_nil_r; cbn [app])).

Lemma str_contains_ok_line (desc : string) :
  str_contains "✅" ("  ✅ " +:+ desc) = true.
Proof. reflexivity. Qed.

Lemma str_contains_ko_line (desc : string) :
  str_contains "✅" ("  ❌ " +:+ desc) = str_contains "✅" desc.
Proof. reflexivity. Qed.

Section Runs.

Variable disk : gmap string node.
Variable re_search : string -> string -> search_result.

Lemma os_path_exists_run (path : string) (tr : list event) :
  os_path_exists disk path tr
  = (Ret (path_exists disk path), tr ++ [Probe path]).
Proof. reflexivity. Qed.

Lemma check_file_exists_run (path description : string) (tr : list event) :
  check_file_exists disk path description tr
  = (Ret (existence_report disk path description).1,
     tr ++ (existence_report disk path description).2).
Proof.
  unfold check_file_exists, existence_report.
  rewrite (bind_run _ _ _ _ _ (os_path_exists_run path tr)).
  destruct (path_exists disk path);
    unfold bind; rewrite print_run; cbn [fst snd];
    rewrite <- app_assoc; reflexivity.
Qed.

Lemma print_all_run (results : list string) (tr : list event) :
  print_all results tr = (Ret tt, tr ++ map Print results).
Proof.
  revert tr. induction results as [|r rest IH]; intros tr.
  - cbn [print_all map]. rewrite app_nil_r. reflexivity.
  - cbn [print_all map].
    rewrite (bind_run _ _ _ _ _ (print_run r tr)), IH, <- app_assoc.
    reflexivity.
Qed.

Lemma collect_results_run (content : string) (patterns : list (string * string))
    (results : list string) (tr : list event) :
  collect_results re_search content patterns results tr
  = match first_bad re_search content patterns with
    | Some msg => (Raise (re_error msg), tr)
    | None => (Ret (results ++ map (result_line re_search content) patterns), tr)
    end.
Proof.
  revert results. induction patterns as [|[pattern desc] rest IH]; intros results.
  - cbn. rewrite app_nil_r. reflexivity.
  - cbn [collect_results first_bad map]. unfold bind, re_search_truth, result_line.
    cbn [fst snd].
    destruct (re_search pattern content) eqn:Hs; cbn.
    + rewrite IH. destruct (first_bad _ _ _); [reflexivity|].
      rewrite <- app_assoc. reflexivity.
    + rewrite IH. destruct (first_bad _ _ _); [reflexivity|].
      rewrite <- app_assoc. reflexivity.
    + reflexivity.
Qed.

Lemma check_file_content_run (path : string) (patterns : list (string * string))
    (description : string) (tr : list event) :
  check_file_content disk re_search path patterns description tr
  = (Ret (content_report disk re_search path patterns description).1,
     tr ++ (content_report disk re_search path patterns description).2).
Proof.
  unfold check_file_content, content_report.
  rewrite (bind_run _ _ _ _ _ (os_path_exists_run path tr)).
  destruct (disk !! path) as [nd|] eqn:Hnd.
  - unfold path_exists. rewrite bool_decide_eq_true_2 by eauto. cbn [negb].
    unfold try_except, open_read, bind at 1 2, emit. rewrite Hnd.
    destruct nd as [content|msg|msg]; cbn [read_and_match].
    + unfold ret at 1, bind at 1. rewrite collect_results_run.
      destruct (first_bad re_search content patterns) as [msg|].
      * unfold bind. rewrite print_run. cbn [fst snd exn_str].
        rewrite <- !app_assoc. reflexivity.
      * unfold bind. rewrite print_run, print_all_run. cbn [fst snd app].
        rewrite <- !app_assoc. reflexivity.
    + unfold raise, bind. rewrite print_run. cbn [fst snd exn_str].
      rewrite <- !app_assoc. reflexivity.
    + unfold raise, bind. rewrite print_run. cbn [fst snd exn_str].
      rewrite <- !app_assoc. reflexivity.
  - unfold path_exists.
    rewrite bool_decide_eq_false_2 by (rewrite Hnd; intros [? ?]; discriminate).
    cbn [negb].
    unfold bind. rewrite print_run. cbn [fst snd].
    rewrite <- !app_assoc. reflexivity.
Qed.

End Runs.

(** ** A check neither reads nor changes the trace it extends *)

Section Frame.

Variable disk : gmap string node.
Variable re_search : string -> string -> search_result.

Lemma run_check_run (c : check) (tr : list event) :
  run_check disk re_search c tr
  = (Ret (passes disk re_search c), tr ++ events_of disk re_search c).
Proof.
  unfold passes, events_of.
  destruct c as [path requirements description | path description];
    cbn [run_check].
  - rewrite !check_file_content_run. reflexivity.
  - rewrite !check_file_exists_run. reflexivity.
Qed.

Lemma passes_content (path : string) (requirements : list (string * string))
    (description : string) :
  passes disk re_search (ContentCheck path requirements description)
  = (content_report disk re_search path requirements description).1.
Proof. unfold passes. cbn [run_check]. rewrite check_file_content_run. reflexivity. Qed.

Lemma passes_existence (path description : string) :
  passes disk re_search (ExistenceCheck path description)
  = path_exists disk path.
Proof.
  unfold passes. cbn [run_check]. rewrite check_file_exists_run.
  unfold existence_report. destruct (path_exists disk path); reflexivity.
Qed.

Lemma check_doc_files_run (files : list (string * list (string * string)))
    (all_checks_passed : bool) (tr : list event) :
  let cs := map (fun doc : string * list (string * string) =>
                   ContentCheck doc.1 doc.2 ("文档: " +:+ doc.1)) files in
  check_doc_files disk re_search files all_checks_passed tr
  = (Ret (all_checks_passed && forallb (passes disk re_search) cs),
     tr ++ concat (map (events_of disk re_search) cs)).
Proof.
  cbv zeta. revert all_checks_passed tr.
  induction files as [|[file_path patterns] rest IH]; intros acc tr.
  - cbn. rewrite andb_true_r, app_nil_r. reflexivity.
  - cbn [check_doc_files map forallb concat fst snd].
    rewrite (bind_run _ _ _ _ _
      (run_check_run (ContentCheck file_path patterns ("文档: " +:+ file_path)) tr)).
    rewrite IH, <- app_assoc, andb_assoc. reflexivity.
Qed.

Lemma check_test_files_run (files : list string) (all_checks_passed : bool)
    (tr : list event) :
  let cs := map (fun file_path => ExistenceCheck file_path "测试/示例文件") files in
  check_test_files disk files all_checks_passed tr
  = (Ret (all_checks_passed && forallb (passes disk re_search) cs),
     tr ++ concat (map (events_of disk re_search) cs)).
Proof.
  cbv zeta. revert all_checks_passed tr.
  induction files as [|file_path rest IH]; intros acc tr.
  - cbn. rewrite andb_true_r, app_nil_r. reflexivity.
  - cbn [check_test_files map forallb concat].
    rewrite (bind_run _ _ _ _ _
      (run_check_run (ExistenceCheck file_path "测试/示例文件") tr)).
    rewrite IH, <- app_assoc, andb_assoc. reflexivity.
Qed.

(** [main] in one equation: what it returns and the trace it leaves,
    from the precondition and the results of the checklist. *)
Lemma main_run (tr : list event) :
  main disk re_search tr
  = if at_project_root disk then
      if forallb (passes disk re_search) checklist then
        (Ret tt,
         tr ++ prelude_events ++ body_events disk re_search
            ++ Print (nl +:+ str_repeat "=" 40) :: map Print success_banner)
      else
        (Exit 1,
         tr ++ prelude_events ++ body_events disk re_search
            ++ [Print (nl +:+ str_repeat "=" 40); Print warning_line])
    else
      (Exit 1, tr ++ map Print title_lines
                  ++ [Probe "Cargo.toml"; Print precondition_error]).
Proof.
  unfold main, at_project_root.
  rewrite (bind_run _ _ _ _ _ (print_run _ _)).
  rewrite (bind_run _ _ _ _ _ (print_run _ _)).
  rewrite (bind_run _ _ _ _ _ (os_path_exists_run disk _ _)).
  destruct (path_exists disk "Cargo.toml"); cbn [negb].
  2:{ unfold bind at 1 2. rewrite print_run. unfold sys_exit. cbn [fst snd].
      rewrite <- !app_assoc. reflexivity. }
  unfold ret at 1, bind at 1.
  rewrite (bind_run _ _ _ _ _ (print_run _ _)).
  rewrite (bind_run _ _ _ _ _ (run_check_run
    (ContentCheck "Cargo.toml" cargo_patterns "Cargo.toml 依赖配置") _)).
  rewrite (bind_run _ _ _ _ _ (print_run _ _)).
  rewrite (bind_run _ _ _ _ _ (run_check_run
    (ContentCheck "src/config/mod.rs" config_patterns "NetworkConfig 结构") _)).
  rewrite (bind_run _ _ _ _ _ (print_run _ _)).
  rewrite (bind_run _ _ _ _ _ (run_check_run
    (ContentCheck "src/network/mod.rs" error_patterns "网络错误类型") _)).
  rewrite (bind_run _ _ _ _ _ (print_run _ _)).
  rewrite (bind_run _ _ _ _ _ (run_check_run
    (ContentCheck "src/network/connection.rs" connection_patterns "Connection 结构") _)).
  rewrite (bind_run _ _ _ _ _ (print_run _ _)).
  rewrite (bind_run _ _ _ _ _ (run_check_run
    (ContentCheck "src/network/manager.rs" manager_patterns "NetworkManager 实现") _)).
  rewrite (bind_run _ _ _ _ _ (print_run _ _)).
  rewrite (bind_run _ _ _ _ _ (check_doc_files_run _ _ _)).
  rewrite (bind_run _ _ _ _ _ (print_run _ _)).
  rewrite (bind_run _ _ _ _ _ (check_test_files_run _ _ _)).
  rewrite (bind_run _ _ _ _ _ (print_run _ _)).
  unfold checklist, sections. cbn [map snd concat].
  rewrite !forallb_app. cbn [forallb]. rewrite !andb_true_r.
  cbn [andb].
  rewrite <- !andb_assoc.
  set (b := (_ && _)%bool).
  destruct b.
  - unfold success_banner, confirmations, next_steps.
    repeat rewrite (bind_run _ _ _ _ _ (print_run _ _)).
    unfold ret, body_events, sections, section_events, prelude_events, title_lines.
    cbn [map concat fst snd app]. norm_trace. reflexivity.
  - rewrite (bind_run _ _ _ _ _ (print_run _ _)).
    unfold sys_exit, body_events, sections, section_events, prelude_events, title_lines.
    cbn [map concat fst snd app]. norm_trace. reflexivity.
Qed.

End Frame.

(** ** Conjunctions of results *)

Lemma forallb_passes_outcomes (disk : gmap string node)
    (re_search : string -> string -> search_result) :
  forallb (passes disk re_search) checklist = forallb id (outcomes disk re_search).
Proof.
  unfold outcomes. induction checklist as [|c cs IH]; [reflexivity|].
  cbn [forallb map]. rewrite IH. reflexivity.
Qed.

Lemma forallb_id_alter_negb (l : list bool) (i : nat) :
  (i < length l)%nat ->
  forallb id (alter negb i l)
  = if forallb id (delete i l) then negb (forallb id l) else false.
Proof.
  revert i. induction l as [|b l IH]; intros i Hi; [cbn in Hi; lia|].
  destruct i as [|i].
  - cbn. destruct b, (forallb id l); reflexivity.
  - cbn in Hi. cbn. rewrite IH by lia.
    destruct b, (forallb id (delete i l)); reflexivity.
Qed.

Lemma forallb_id_delete_false (l : list bool) (i : nat) :
  forallb id (delete i l) = false -> forallb id l = false.
Proof.
  revert i. induction l as [|b l IH]; intros i H; [destruct i; discriminate|].
  destruct i as [|i]; cbn in *.
  - rewrite H. apply andb_false_r.
  - destruct b; cbn in *; [eauto | reflexivity].
Qed.

Lemma forallb_true_Forall {A} (f : A -> bool) (l : list A) :
  forallb f l = true <-> Forall (fun x => f x = true) l.
Proof.
  induction l as [|x l IH]; cbn.
  - split; [constructor | reflexivity].
  - rewrite andb_true_iff, IH. split.
    + intros [? ?]. constructor; assumption.
    + intros H. inversion H; subst. split; assumption.
Qed.

Lemma forallb_false_Exists {A} (f : A -> bool) (l : list A) :
  forallb f l = false <-> Exists (fun x => f x = false) l.
Proof.
  induction l as [|x l IH]; cbn.
  - split; [discriminate | intros H; inversion H].
  - rewrite andb_false_iff, IH. split.
    + intros [?|?]; [left | right]; assumption.
    + intros H. inversion H; subst; [left | right]; assumption.
Qed.

(** The exit status of a run, from the precondition and the results. *)
Lemma main_exit_code (disk : gmap string node)
    (re_search : string -> string -> search_result) (tr : list event) :
  exit_code (main disk re_search tr).1
  = if at_project_root disk && forallb id (outcomes disk re_search) then 0 else 1.
Proof.
  rewrite main_run, <- forallb_passes_outcomes.
  destruct (at_project_root disk), (forallb _ checklist); reflexivity.
Qed.

(** ** The claims *)

(** C1.  The exit status is 0 exactly when [Cargo.toml] is present and
    every check of the run returned true, and 1 exactly when
    [Cargo.toml] is missing or some check returned false.  Between two
    runs at a project root whose results differ in the check of rank [i]
    alone, the status flips when no other check fails, and stays 1 when
    another check fails. *)
Theorem exit_code_aggregates (disk : gmap string node)
    (re_search : string -> string -> search_result) (tr : list event) :
  (exit_code (main disk re_search tr).1 = 0
   <-> at_project_root disk = true
       /\ Forall (fun c => passes disk re_search c = true) checklist)
  /\ (exit_code (main disk re_search tr).1 = 1
      <-> at_project_root disk = false
          \/ Exists (fun c => passes disk re_search c = false) checklist)
  /\ (forall (disk' : gmap string node) (tr' : list event) (i : nat),
        at_project_root disk = true ->
        at_project_root disk' = true ->
        (i < length checklist)%nat ->
        outcomes disk' re_search = alter negb i (outcomes disk re_search) ->
        if forallb id (delete i (outcomes disk re_search))
        then exit_code (main disk' re_search tr').1
             = 1 - exit_code (main disk re_search tr).1
        else exit_code (main disk' re_search tr').1 = 1
             /\ exit_code (main disk re_search tr).1 = 1).
Proof.
  split; [|split].
  - rewrite main_exit_code, <- forallb_passes_outcomes, <- forallb_true_Forall.
    destruct (at_project_root disk), (forallb _ checklist); cbn; intuition congruence.
  - rewrite main_exit_code, <- forallb_passes_outcomes, <- forallb_false_Exists.
    destruct (at_project_root disk), (forallb _ checklist); cbn; intuition congruence.
  - intros disk' tr' i Hroot Hroot' Hi Hflip.
    rewrite !main_exit_code, Hroot, Hroot', Hflip. cbn [andb].
    rewrite forallb_id_alter_negb
      by (unfold outcomes; rewrite length_map; exact Hi).
    destruct (forallb id (delete i (outcomes disk re_search))) eqn:Hothers.
    + destruct (forallb id (outcomes disk re_search)); reflexivity.
    + rewrite (forallb_id_delete_false _ _ Hothers). split; reflexivity.
Qed.

(** The law of C1 on the migrated project and on the one that lost its
    notes: the last check alone changes, and the status goes from 0 to 1. *)
Lemma exit_code_aggregates_witness :
  exit_code (main no_notes Re.search []).1
  = 1 - exit_code (main migrated Re.search []).1.
Proof.
  pose proof (proj2 (proj2 (exit_code_aggregates migrated Re.search []))
                no_notes [] 10%nat) as H.
  assert (Hothers :
    forallb id (delete 10%nat (outcomes migrated Re.search)) = true)
    by (vm_compute; reflexivity).
  rewrite Hothers in H. apply H.
  - vm_compute; reflexivity.
  - vm_compute; reflexivity.
  - vm_compute; lia.
  - vm_compute; reflexivity.
Defined.

(** C3.  [check_file_exists] returns true after one line of success when
    the path exists at the time of the call, and false after one line of
    failure when it does not; it raises in neither case. *)
Theorem check_file_exists_spec (disk : gmap string node)
    (path description : string) (tr : list event) :
  check_file_exists disk path description tr
  = if path_exists disk path
    then (Ret true,
          tr ++ [Probe path; Print ("✅ " +:+ description +:+ ": " +:+ path)])
    else (Ret false,
          tr ++ [Probe path;
                 Print ("❌ " +:+ description +:+ ": " +:+ path +:+ " (不存在)")]).
Proof.
  rewrite check_file_exists_run. unfold existence_report.
  destruct (path_exists disk path); reflexivity.
Qed.

(** C4.  Whatever the requirements, the empty list among them,
    [check_file_content] returns false on a path that does not exist;
    with no requirement it returns true exactly when the path names a
    file that can be read. *)
Theorem check_file_content_absent (disk : gmap string node)
    (re_search : string -> string -> search_result)
    (path description : string) (tr : list event) :
  (forall requirements : list (string * string),
     path_exists disk path = false ->
     check_file_content disk re_search path requirements description tr
     = (Ret false,
        tr ++ [Probe path;
               Print ("❌ " +:+ description +:+ ": " +:+ path +:+ " (文件不存在)")]))
  /\ ((check_file_content disk re_search path [] description tr).1 = Ret true
      <-> exists content, disk !! path = Some (Text content)).
Proof.
  split.
  - intros requirements Habsent.
    rewrite check_file_content_run. unfold content_report.
    unfold path_exists in Habsent. apply bool_decide_eq_false_1 in Habsent.
    destruct (disk !! path) as [nd|]; [|reflexivity].
    exfalso. apply Habsent. eauto.
  - rewrite check_file_content_run. unfold content_report.
    destruct (disk !! path) as [[content|msg|msg]|]; cbn; split;
      try discriminate; try (intros [? ?]; discriminate); eauto.
Qed.

(** C4 at the directory that holds no [Cargo.toml]: the three
    requirements of the manifest are not looked at. *)
Lemma check_file_content_absent_witness :
  check_file_content elsewhere Re.search "Cargo.toml" cargo_patterns "Cargo.toml 依赖配置" []
  = (Ret false,
     [] ++ [Probe "Cargo.toml";
            Print ("❌ " +:+ "Cargo.toml 依赖配置" +:+ ": " +:+ "Cargo.toml" +:+ " (文件不存在)")]).
Proof.
  apply (proj1 (check_file_content_absent elsewhere Re.search
                  "Cargo.toml" "Cargo.toml 依赖配置" [])).
  vm_compute. reflexivity.
Defined.

(** C5.  A file that cannot be opened or decoded makes
    [check_file_content] print one line with the message of the error and
    return false.  No check ends with an exception or an exit, so [main]
    returns normally or leaves through one of its two [sys.exit(1)]: the
    missing precondition and the conjunction of the results. *)
Theorem io_failure_is_caught (disk : gmap string node)
    (re_search : string -> string -> search_result) :
  (forall (path : string) (requirements : list (string * string))
          (description msg : string) (tr : list event),
     disk !! path = Some (OpenFails msg) \/ disk !! path = Some (DecodeFails msg) ->
     check_file_content disk re_search path requirements description tr
     = (Ret false,
        tr ++ [Probe path; Open path;
               Print ("❌ " +:+ description +:+ ": 读取文件失败 - " +:+ msg)]))
  /\ (forall (c : check) (tr : list event),
        exists b : bool, (run_check disk re_search c tr).1 = Ret b)
  /\ (forall tr : list event,
        (main disk re_search tr).1
        = if at_project_root disk && forallb (passes disk re_search) checklist
          then Ret tt else Exit 1).
Proof.
  split; [|split].
  - intros path requirements description msg tr Hnode.
    rewrite check_file_content_run. unfold content_report.
    destruct Hnode as [-> | ->]; reflexivity.
  - intros c tr. rewrite run_check_run. eauto.
  - intros tr. rewrite main_run.
    destruct (at_project_root disk), (forallb _ checklist); reflexivity.
Qed.

(** C5 on a configuration module without the permission to read. *)
Lemma io_failure_is_caught_witness :
  check_file_content locked_config Re.search
    "src/config/mod.rs" config_patterns "NetworkConfig 结构" []
  = (Ret false,
     [] ++ [Probe "src/config/mod.rs"; Open "src/config/mod.rs";
            Print ("❌ " +:+ "NetworkConfig 结构" +:+ ": 读取文件失败 - "
                   +:+ "[Errno 13] Permission denied: 'src/config/mod.rs'")]).
Proof.
  apply (proj1 (io_failure_is_caught locked_config Re.search)).
  left. vm_compute. reflexivity.
Defined.

(** C6.  Without [Cargo.toml] in the working directory, [main] prints its
    two title lines and one line of error, asks the file system about
    [Cargo.toml] and nothing else, opens no file, and exits with 1. *)
Theorem precondition_missing (disk : gmap string node)
    (re_search : string -> string -> search_result) (tr : list event) :
  path_exists disk "Cargo.toml" = false ->
  main disk re_search tr
  = (Exit 1,
     tr ++ map Print title_lines ++ [Probe "Cargo.toml"; Print precondition_error])
  /\ exit_code (main disk re_search tr).1 = 1
  /\ stdout (main disk re_search tr).2
     = stdout tr ++ title_lines ++ [precondition_error]
  /\ probed (main disk re_search tr).2 = probed tr ++ ["Cargo.toml"]
  /\ opened (main disk re_search tr).2 = opened tr.
Proof.
  intros Habsent. rewrite main_run. unfold at_project_root. rewrite Habsent.
  cbn [fst snd exit_code]. unfold stdout, probed, opened.
  rewrite !omap_app. cbn. rewrite app_nil_r. repeat split; reflexivity.
Qed.

(** C6 in a directory that holds a README and no manifest. *)
Lemma precondition_missing_witness :
  main elsewhere Re.search []
  = (Exit 1,
     [] ++ map Print title_lines ++ [Probe "Cargo.toml"; Print precondition_error]).
Proof.
  apply (precondition_missing elsewhere Re.search []).
  vm_compute. reflexivity.
Defined.

(** ** What a run asks the file system *)

Lemma probed_app (tr1 tr2 : list event) :
  probed (tr1 ++ tr2) = probed tr1 ++ probed tr2.
Proof. unfold probed. apply omap_app. Qed.

Lemma probed_prints (lines : list string) : probed (map Print lines) = [].
Proof. induction lines as [|l ls IH]; [reflexivity | exact IH]. Qed.

Lemma stdout_app (tr1 tr2 : list event) :
  stdout (tr1 ++ tr2) = stdout tr1 ++ stdout tr2.
Proof. unfold stdout. apply omap_app. Qed.

Lemma stdout_prints (lines : list string) : stdout (map Print lines) = lines.
Proof.
  induction lines as [|l ls IH]; [reflexivity|].
  cbn [map]. change (stdout (Print l :: map Print ls)) with (l :: stdout (map Print ls)).
  rewrite IH. reflexivity.
Qed.

Section Probes.

Variable disk : gmap string node.
Variable re_search : string -> string -> search_result.

Lemma events_of_content (path : string) (requirements : list (string * string))
    (description : string) :
  events_of disk re_search (ContentCheck path requirements description)
  = (content_report disk re_search path requirements description).2.
Proof.
  unfold events_of. cbn [run_check]. rewrite check_file_content_run. reflexivity.
Qed.

Lemma events_of_existence (path description : string) :
  events_of disk re_search (ExistenceCheck path description)
  = (existence_report disk path description).2.
Proof.
  unfold events_of. cbn [run_check]. rewrite check_file_exists_run. reflexivity.
Qed.

(** Every check asks about its own path, once, whatever it finds. *)
Lemma probed_events_of (c : check) :
  probed (events_of disk re_search c) = [check_path c].
Proof.
  destruct c as [path requirements description | path description].
  - rewrite events_of_content. unfold content_report.
    destruct (disk !! path) as [nd|]; [|reflexivity].
    destruct (read_and_match re_search nd requirements) as [lines|e];
      [|reflexivity].
    cbn [snd]. rewrite probed_app, probed_prints. reflexivity.
  - rewrite events_of_existence. unfold existence_report.
    destruct (path_exists disk path); reflexivity.
Qed.

Lemma probed_checks (cs : list check) :
  probed (concat (map (events_of disk re_search) cs)) = map check_path cs.
Proof.
  induction cs as [|c cs IH]; [reflexivity|].
  cbn [map concat]. rewrite probed_app, probed_events_of, IH. reflexivity.
Qed.

Lemma probed_sections (secs : list (string * list check)) :
  probed (concat (map (section_events disk re_search) secs))
  = map check_path (concat (map snd secs)).
Proof.
  induction secs as [|[title cs] secs IH]; [reflexivity|].
  cbn [map concat snd]. rewrite probed_app, map_app, IH.
  unfold section_events. cbn [fst snd].
  change (probed (Print (nl +:+ title) :: ?l)) with (probed l).
  rewrite probed_checks. reflexivity.
Qed.

(** Past the precondition, [main] asks about the path of every check of
    the list, in order, whatever the earlier checks returned. *)
Lemma probed_main (tr : list event) :
  at_project_root disk = true ->
  probed (main disk re_search tr).2
  = probed tr ++ "Cargo.toml" :: map check_path checklist.
Proof.
  intros Hroot. rewrite main_run, Hroot.
  assert (Hbody : probed (prelude_events ++ body_events disk re_search)
                  = "Cargo.toml" :: map check_path checklist).
  { rewrite probed_app. unfold body_events. rewrite probed_sections.
    reflexivity. }
  destruct (forallb _ checklist); cbn [snd];
    rewrite !app_assoc, (probed_app _ (_ :: _)), <- app_assoc, (probed_app tr), Hbody.
  - change (Print ?x :: map Print ?l) with (map Print (x :: l)).
    rewrite probed_prints, app_nil_r. reflexivity.
  - cbn. rewrite app_nil_r. reflexivity.
Qed.

Lemma result_line_marked (content : string) (req : string * string) :
  str_contains "✅" (result_line re_search content req)
  = hit re_search content req || str_contains "✅" req.2.
Proof.
  unfold result_line, hit. destruct (re_search req.1 content).
  - rewrite str_contains_ok_line. reflexivity.
  - rewrite str_contains_ko_line. reflexivity.
  - rewrite str_contains_ko_line. reflexivity.
Qed.

Lemma forallb_result_lines (content : string) (requirements : list (string * string)) :
  forallb (str_contains "✅") (map (result_line re_search content) requirements)
  = forallb (fun req => hit re_search content req || str_contains "✅" req.2)
      requirements.
Proof.
  induction requirements as [|req rest IH]; [reflexivity|].
  cbn [map forallb]. rewrite result_line_marked, IH. reflexivity.
Qed.

Lemma hit_or_marked_Forall (content : string) (requirements : list (string * string)) :
  forallb (fun req => hit re_search content req || str_contains "✅" req.2)
    requirements = true
  <-> Forall (fun req => re_search req.1 content = Found
                         \/ str_contains "✅" req.2 = true) requirements.
Proof.
  induction requirements as [|req rest IH]; cbn [forallb].
  - split; [constructor | reflexivity].
  - rewrite andb_true_iff, IH, Forall_cons. unfold hit.
    destruct (re_search req.1 content); cbn; intuition congruence.
Qed.

End Probes.

(** The eleven calls of [main]: eight of content and three of existence.
    When they all return true at a project root, [main] ends its report
    with the banner of success and returns. *)
Lemma eleven_calls_passed (disk : gmap string node)
    (re_search : string -> string -> search_result) (tr : list event) :
  at_project_root disk = true ->
  outcomes disk re_search = replicate 11 true ->
  main disk re_search tr
  = (Ret tt,
     tr ++ prelude_events ++ body_events disk re_search
        ++ Print (nl +:+ str_repeat "=" 40) :: map Print success_banner)
  /\ exit_code (main disk re_search tr).1 = 0
  /\ stdout (main disk re_search tr).2
     = stdout tr ++ title_lines ++ stdout (body_events disk re_search)
       ++ [nl +:+ str_repeat "=" 40]
       ++ [ "🎉 所有检查通过！网络层迁移已完成"; nl +:+ "迁移总结:" ]
       ++ confirmations ++ [ nl +:+ "下一步:" ] ++ next_steps.
Proof.
  intros Hroot Hall. rewrite main_run, Hroot, forallb_passes_outcomes, Hall.
  cbn [replicate forallb id andb fst snd exit_code].
  repeat split; try reflexivity.
  rewrite !stdout_app.
  change (Print ?x :: map Print ?l) with (map Print (x :: l)).
  rewrite stdout_prints. unfold prelude_events.
  rewrite stdout_app, stdout_prints. cbn [stdout omap app].
  rewrite app_nil_r. reflexivity.
Qed.

(** The loop over [test_files] passes when its three calls pass. *)
Lemma existence_loop_passes_calls (disk : gmap string node)
    (re_search : string -> string -> search_result) :
  existence_loop_passes disk
  = forallb (passes disk re_search)
      (map (fun file_path => ExistenceCheck file_path "测试/示例文件") test_files).
Proof.
  unfold existence_loop_passes.
  rewrite (check_test_files_run disk re_search test_files true []).
  reflexivity.
Qed.

(** The nine checks in terms of the eleven calls. *)
Lemma nine_outcomes_calls (disk : gmap string node)
    (re_search : string -> string -> search_result) :
  nine_outcomes disk re_search = replicate 9 true ->
  outcomes disk re_search = replicate 11 true.
Proof.
  unfold nine_outcomes. rewrite (existence_loop_passes_calls disk re_search).
  unfold outcomes, checklist, content_checks, sections, doc_files, test_files.
  cbn [take firstn map snd concat app forallb replicate fst].
  intros [= H1 H2 H3 H4 H5 H6 H7 H8 H9].
  rewrite H1, H2, H3, H4, H5, H6, H7, H8.
  apply andb_true_iff in H9 as [H9 H10].
  apply andb_true_iff in H10 as [H10 H11].
  apply andb_true_iff in H11 as [H11 _].
  rewrite H9, H10, H11. reflexivity.
Qed.

(** C7.  The nine checks of a run are the eight checks of content and
    the loop over the three files that only have to exist.  When
    [Cargo.toml] is present and the nine checks report success, [main]
    ends its report with the banner of success, its five confirmations
    and its three next steps, and the exit status is 0. *)
Theorem nine_checks_passed_banner (disk : gmap string node)
    (re_search : string -> string -> search_result) (tr : list event) :
  at_project_root disk = true ->
  nine_outcomes disk re_search = replicate 9 true ->
  main disk re_search tr
  = (Ret tt,
     tr ++ prelude_events ++ body_events disk re_search
        ++ Print (nl +:+ str_repeat "=" 40) :: map Print success_banner)
  /\ exit_code (main disk re_search tr).1 = 0
  /\ stdout (main disk re_search tr).2
     = stdout tr ++ title_lines ++ stdout (body_events disk re_search)
       ++ [nl +:+ str_repeat "=" 40]
       ++ [ "🎉 所有检查通过！网络层迁移已完成"; nl +:+ "迁移总结:" ]
       ++ confirmations ++ [ nl +:+ "下一步:" ] ++ next_steps
  /\ length (nine_outcomes disk re_search) = 9%nat
  /\ length confirmations = 5%nat
  /\ length next_steps = 3%nat.
Proof.
  intros Hroot Hnine.
  destruct (eleven_calls_passed disk re_search tr Hroot
              (nine_outcomes_calls disk re_search Hnine)) as (Hrun & Hexit & Hout).
  repeat split; try assumption; reflexivity.
Qed.

(** C7 on the migrated project. *)
Lemma nine_checks_passed_banner_witness :
  exit_code (main migrated Re.search []).1 = 0.
Proof.
  apply (nine_checks_passed_banner migrated Re.search []).
  - vm_compute. reflexivity.
  - vm_compute. reflexivity.
Defined.

(** C8.  [Cargo.toml] is present and readable, and exactly two of the
    three patterns of the manifest are found in it.  Then the check of
    the manifest prints its header, two lines of success and one of
    failure; [main] goes on to ask about the path of each of the eleven
    checks, prints the warning and exits with 1. *)
Theorem one_pattern_missing (disk : gmap string node)
    (re_search : string -> string -> search_result)
    (content : string) (tr : list event) :
  disk !! "Cargo.toml" = Some (Text content) ->
  first_bad re_search content cargo_patterns = None ->
  length (List.filter (hit re_search content) cargo_patterns) = 2%nat ->
  let lines := map (result_line re_search content) cargo_patterns in
  events_of disk re_search
    (ContentCheck "Cargo.toml" cargo_patterns "Cargo.toml 依赖配置")
  = [Probe "Cargo.toml"; Open "Cargo.toml";
     Print ("📄 " +:+ "Cargo.toml 依赖配置" +:+ ": " +:+ "Cargo.toml")]
    ++ map Print lines
  /\ length lines = 3%nat
  /\ length (List.filter (String.prefix "  ✅ ") lines) = 2%nat
  /\ length (List.filter (String.prefix "  ❌ ") lines) = 1%nat
  /\ main disk re_search tr
     = (Exit 1,
        tr ++ prelude_events ++ body_events disk re_search
           ++ [Print (nl +:+ str_repeat "=" 40); Print warning_line])
  /\ probed (main disk re_search tr).2
     = probed tr ++ "Cargo.toml" :: map check_path checklist
  /\ exit_code (main disk re_search tr).1 = 1.
Proof.
  intros Hfile Hgood Htwo lines.
  assert (Hroot : at_project_root disk = true).
  { unfold at_project_root, path_exists. apply bool_decide_eq_true_2.
    rewrite Hfile. eauto. }
  assert (Hreport :
    content_report disk re_search "Cargo.toml" cargo_patterns "Cargo.toml 依赖配置"
    = (forallb (str_contains "✅") lines,
       [Probe "Cargo.toml"; Open "Cargo.toml";
        Print ("📄 " +:+ "Cargo.toml 依赖配置" +:+ ": " +:+ "Cargo.toml")]
       ++ map Print lines)).
  { unfold content_report. rewrite Hfile. cbn [read_and_match].
    rewrite Hgood. reflexivity. }
  assert (Hfails :
    passes disk re_search
      (ContentCheck "Cargo.toml" cargo_patterns "Cargo.toml 依赖配置") = false
    /\ length (List.filter (String.prefix "  ✅ ") lines) = 2%nat
    /\ length (List.filter (String.prefix "  ❌ ") lines) = 1%nat).
  { rewrite passes_content, Hreport. cbn [fst]. subst lines.
    revert Htwo. unfold cargo_patterns, hit, result_line.
    cbn [map List.filter forallb fst snd].
    destruct (re_search _ content); destruct (re_search _ content);
      destruct (re_search _ content); cbn; intros Htwo;
      try discriminate Htwo; repeat split; reflexivity. }
  destruct Hfails as (Hfalse & Hok & Hko).
  split; [|split; [|split; [|split; [|split; [|split]]]]].
  - rewrite events_of_content, Hreport. reflexivity.
  - reflexivity.
  - exact Hok.
  - exact Hko.
  - rewrite main_run, Hroot. unfold checklist, sections at 1.
    cbn [map snd concat app forallb]. rewrite Hfalse. reflexivity.
  - apply probed_main. exact Hroot.
  - rewrite main_exit_code, Hroot, <- forallb_passes_outcomes.
    unfold checklist, sections. cbn [map snd concat app forallb].
    rewrite Hfalse. reflexivity.
Qed.

(** C8 on the project whose manifest still asks for the old [futures]. *)
Lemma one_pattern_missing_witness :
  exit_code (main old_futures Re.search []).1 = 1.
Proof.
  apply (one_pattern_missing old_futures Re.search (cargo_toml "0.1") []).
  - vm_compute. reflexivity.
  - vm_compute. reflexivity.
  - vm_compute. reflexivity.
Defined.

(** C9.  On a given file system, what a check returns and what it adds
    to the trace do not depend on what the process did before, and the
    same holds of [main]: two runs in the same directory have the same
    exit status and the same output, the second run after the first one
    or after any other history. *)
Theorem runs_are_deterministic (disk : gmap string node)
    (re_search : string -> string -> search_result) :
  (forall c : check,
     exists (b : bool) (evs : list event),
       forall tr : list event, run_check disk re_search c tr = (Ret b, tr ++ evs))
  /\ (exists (code : Z) (evs : list event),
        forall tr : list event,
          exit_code (main disk re_search tr).1 = code
          /\ (main disk re_search tr).2 = tr ++ evs
          /\ stdout (main disk re_search tr).2 = stdout tr ++ stdout evs
          /\ exit_code (main disk re_search (main disk re_search tr).2).1 = code
          /\ stdout (main disk re_search (main disk re_search tr).2).2
             = (stdout tr ++ stdout evs) ++ stdout evs).
Proof.
  split.
  - intros c.
    exists (passes disk re_search c), (events_of disk re_search c).
    intros tr. apply run_check_run.
  - exists (exit_code (main disk re_search []).1), (main disk re_search []).2.
    assert (Hframe : forall tr,
      exit_code (main disk re_search tr).1 = exit_code (main disk re_search []).1
      /\ (main disk re_search tr).2 = tr ++ (main disk re_search []).2).
    { intros tr. rewrite !main_run.
      destruct (at_project_root disk); [destruct (forallb _ checklist)|];
        split; reflexivity. }
    intros tr.
    destruct (Hframe tr) as [Hcode Htrace].
    destruct (Hframe (main disk re_search tr).2) as [Hcode2 Htrace2].
    rewrite Hcode2, Htrace2, Htrace, Hcode, !stdout_app.
    repeat split; reflexivity.
Qed.

(** C10.  On a file that can be read and with patterns that [re]
    accepts, [check_file_content] prints the header and the lines of
    [results], and returns the conjunction of the tests [✅ in line]
    over these lines: true exactly when every line holds the mark.  A
    requirement therefore counts as met when its pattern is found or
    when its description holds the mark, and the check returns true as
    soon as each requirement is of one of these two kinds. *)
Theorem verdict_from_printed_lines (disk : gmap string node)
    (re_search : string -> string -> search_result)
    (path : string) (requirements : list (string * string))
    (description content : string) (tr : list event) :
  disk !! path = Some (Text content) ->
  first_bad re_search content requirements = None ->
  let lines := map (result_line re_search content) requirements in
  check_file_content disk re_search path requirements description tr
  = (Ret (forallb (str_contains "✅") lines),
     tr ++ [Probe path; Open path; Print ("📄 " +:+ description +:+ ": " +:+ path)]
        ++ map Print lines)
  /\ ((check_file_content disk re_search path requirements description tr).1 = Ret true
      <-> Forall (fun line => str_contains "✅" line = true) lines)
  /\ ((check_file_content disk re_search path requirements description tr).1 = Ret true
      <-> Forall (fun req => re_search req.1 content = Found
                             \/ str_contains "✅" req.2 = true) requirements).
Proof.
  intros Hfile Hgood lines.
  assert (Hrun :
    check_file_content disk re_search path requirements description tr
    = (Ret (forallb (str_contains "✅") lines),
       tr ++ [Probe path; Open path; Print ("📄 " +:+ description +:+ ": " +:+ path)]
          ++ map Print lines)).
  { rewrite check_file_content_run. unfold content_report.
    rewrite Hfile. cbn [read_and_match]. rewrite Hgood. reflexivity. }
  split; [exact Hrun|]. rewrite Hrun. cbn [fst]. split.
  - rewrite <- forallb_true_Forall. split; congruence.
  - subst lines. rewrite forallb_result_lines, <- hit_or_marked_Forall.
    split; congruence.
Qed.

(** C10 on the API reference of the migrated project: [enable_quic] is
    not in the file, its description holds the mark, and the check
    returns true. *)
Lemma verdict_from_printed_lines_witness :
  Re.search "enable_quic: bool" api_reference = NotFound
  /\ (check_file_content migrated Re.search
        "doc/api-reference.md" api_requirements "API 文档" []).1 = Ret true.
Proof.
  split; [vm_compute; reflexivity|].
  destruct (verdict_from_printed_lines migrated Re.search
              "doc/api-reference.md" api_requirements "API 文档" api_reference [])
    as (_ & _ & Hmarked).
  - vm_compute. reflexivity.
  - vm_compute. reflexivity.
  - apply Hmarked. constructor; [|constructor; [|constructor]].
    + left. vm_compute. reflexivity.
    + right. vm_compute. reflexivity.
Defined.

(** When no description holds the mark, [check_file_content] returns
    true only if every pattern is found. *)
Lemma true_only_if_all_found (disk : gmap string node)
    (re_search : string -> string -> search_result)
    (path : string) (requirements : list (string * string))
    (description : string) (tr : list event) :
  Forall (fun req : string * string => str_contains "✅" req.2 = false) requirements ->
  (check_file_content disk re_search path requirements description tr).1 = Ret true ->
  exists content,
    disk !! path = Some (Text content)
    /\ Forall (fun req : string * string => re_search req.1 content = Found) requirements.
Proof.
  intros Hplain. rewrite check_file_content_run. unfold content_report.
  destruct (disk !! path) as [[content|msg|msg]|]; cbn [read_and_match];
    try (cbn; discriminate).
  destruct (first_bad re_search content requirements); [cbn; discriminate|].
  cbn [fst]. intros [= Htrue]. exists content. split; [reflexivity|].
  rewrite forallb_result_lines in Htrue.
  induction Hplain as [|req rest Hreq _ IH]; [constructor|].
  cbn [forallb] in Htrue. apply andb_true_iff in Htrue as [Hhit Hrest].
  constructor; [|exact (IH Hrest)].
  rewrite Hreq, orb_false_r in Hhit. unfold hit in Hhit.
  destruct (re_search req.1 content); [reflexivity | discriminate | discriminate].
Qed.

(** C2 fails on the code.  [quic] does not occur in the manifest of the
    migrated project; the check prints the line of failure of the one
    requirement, whose description holds the mark, and returns true. *)
Theorem true_without_a_match :
  Re.search "quic" (cargo_toml "0.3") = NotFound
  /\ migrated !! "Cargo.toml" = Some (Text (cargo_toml "0.3"))
  /\ check_file_content migrated Re.search "Cargo.toml" marked_requirement "QUIC" []
     = (Ret true,
        [Probe "Cargo.toml"; Open "Cargo.toml";
         Print "📄 QUIC: Cargo.toml"; Print "  ❌ ✅ QUIC 已启用"]).
Proof. vm_compute. repeat split; reflexivity. Qed.

(** ** The engine on the patterns of the script *)

(** A pattern is looked for in the whole text, on any line and at any
    column; [^] and [$] hold at the line feeds inside the text; [.] does
    not cross a line feed. *)
Example search_is_multiline :
  Re.search (dq +:+ "tcp" +:+ dq) (cargo_toml "0.3") = Found
  /\ Re.search "^futures" (cargo_toml "0.3") = Found
  /\ Re.search "^futures" ("use futures" +:+ nl) = NotFound
  /\ Re.search "bool$" api_reference = Found
  /\ Re.search "bool.mdns" api_reference = NotFound
  /\ Re.search ("bool" +:+ nl +:+ "mdns") api_reference = Found
  /\ Re.search "libp2p.*点对点网络通信" "基于 libp2p 的点对点网络通信" = Found.
Proof. vm_compute. repeat split; reflexivity. Qed.

(** * Further properties of the script *)

(** ** Patterns that [re] rejects *)

Section Rejected.

Variable disk : gmap string node.
Variable re_search : string -> string -> search_result.

Lemma first_bad_app (content : string) (reqs1 reqs2 : list (string * string)) :
  first_bad re_search content (reqs1 ++ reqs2)
  = match first_bad re_search content reqs1 with
    | Some msg => Some msg
    | None => first_bad re_search content reqs2
    end.
Proof.
  induction reqs1 as [|[pattern desc] rest IH]; [reflexivity|].
  cbn [app first_bad]. destruct (re_search pattern content); auto.
Qed.

Lemma first_bad_accepted (content : string) (reqs : list (string * string)) :
  forallb (accepted re_search content) reqs = true ->
  first_bad re_search content reqs = None.
Proof.
  induction reqs as [|[pattern desc] rest IH]; [reflexivity|].
  cbn [forallb first_bad]. unfold accepted at 1. cbn [fst].
  destruct (re_search pattern content); cbn; auto; discriminate.
Qed.

(** X1.  The first pattern that [re] rejects ends the loop over the
    requirements: the exception reaches the handler, and neither the
    header nor a line of the requirements before it is printed. *)
Theorem rejected_pattern_one_line
    (path description content pattern desc msg : string)
    (before after : list (string * string)) (tr : list event) :
  disk !! path = Some (Text content) ->
  forallb (accepted re_search content) before = true ->
  re_search pattern content = BadPattern msg ->
  check_file_content disk re_search path
    (before ++ (pattern, desc) :: after) description tr
  = (Ret false,
     tr ++ [Probe path; Open path;
            Print ("❌ " +:+ description +:+ ": 读取文件失败 - " +:+ msg)]).
Proof.
  intros Hfile Hbefore Hbad.
  rewrite check_file_content_run. unfold content_report.
  rewrite Hfile. cbn [read_and_match].
  rewrite first_bad_app, (first_bad_accepted _ _ Hbefore).
  cbn [first_bad]. rewrite Hbad. reflexivity.
Qed.


(** X3.  A list of requirements can be cut in two: the check of the whole
    list returns the conjunction of the checks of the two parts. *)
Theorem requirements_compose (path : string)
    (reqs1 reqs2 : list (string * string)) (description : string) (tr : list event) :
  (check_file_content disk re_search path (reqs1 ++ reqs2) description tr).1
  = Ret (passes disk re_search (ContentCheck path reqs1 description)
         && passes disk re_search (ContentCheck path reqs2 description)).
Proof.
  rewrite check_file_content_run, !passes_content. cbn [fst]. f_equal.
  unfold content_report.
  destruct (disk !! path) as [[content|msg|msg]|]; try reflexivity.
  cbn [read_and_match]. rewrite first_bad_app.
  destruct (first_bad re_search content reqs1); [reflexivity|].
  destruct (first_bad re_search content reqs2); cbn [fst].
  - rewrite andb_false_r. reflexivity.
  - rewrite map_app, forallb_app. reflexivity.
Qed.

End Rejected.

(** The API reference under three requirements, the second of which is
    the pattern of an open group: one line, and no trace of the first
    requirement, which is met. *)
Lemma rejected_pattern_one_line_witness :
  check_file_content migrated Re.search "doc/api-reference.md"
    ([("enable_mdns: bool", "API 文档已更新")]
     ++ ("(", "未闭合的分组") :: [("mdns_discovery_interval: u64", "mDNS 配置已文档化")])
    "API 文档" []
  = (Ret false,
     [] ++ [Probe "doc/api-reference.md"; Open "doc/api-reference.md";
            Print ("❌ " +:+ "API 文档" +:+ ": 读取文件失败 - "
                   +:+ "pattern outside the fragment")]).
Proof.
  apply (rejected_pattern_one_line migrated Re.search
           "doc/api-reference.md" "API 文档" api_reference).
  - vm_compute. reflexivity.
  - vm_compute. reflexivity.
  - vm_compute. reflexivity.
Defined.

(** ** The files that a run opens *)

Lemma opened_app (tr1 tr2 : list event) :
  opened (tr1 ++ tr2) = opened tr1 ++ opened tr2.
Proof. unfold opened. apply omap_app. Qed.

Lemma opened_prints (lines : list string) : opened (map Print lines) = [].
Proof. induction lines as [|l ls IH]; [reflexivity | exact IH]. Qed.

Lemma fs_events_app (tr1 tr2 : list event) :
  fs_events (tr1 ++ tr2) = fs_events tr1 ++ fs_events tr2.
Proof. unfold fs_events. apply List.filter_app. Qed.

Lemma fs_events_prints (lines : list string) : fs_events (map Print lines) = [].
Proof. induction lines as [|l ls IH]; [reflexivity | exact IH]. Qed.

Section Opens.

Variable disk : gmap string node.
Variable re_search : string -> string -> search_result.

Lemma fs_events_events_of (c : check) :
  fs_events (events_of disk re_search c) = fs_events_of disk c.
Proof.
  destruct c as [path requirements description | path description];
    cbn [fs_events_of].
  - rewrite events_of_content. unfold content_report.
    destruct (disk !! path) as [nd|] eqn:Hnd.
    + assert (Hex : path_exists disk path = true)
        by (unfold path_exists; apply bool_decide_eq_true_2; rewrite Hnd; eauto).
      rewrite Hex.
      destruct (read_and_match re_search nd requirements) as [lines|e];
        [|reflexivity].
      cbn [snd]. rewrite fs_events_app, fs_events_prints. reflexivity.
    + assert (Hex : path_exists disk path = false)
        by (unfold path_exists; apply bool_decide_eq_false_2; rewrite Hnd;
            intros [? ?]; discriminate).
      rewrite Hex. reflexivity.
  - rewrite events_of_existence. unfold existence_report.
    destruct (path_exists disk path); reflexivity.
Qed.

Lemma fs_events_checks (cs : list check) :
  fs_events (concat (map (events_of disk re_search) cs))
  = concat (map (fs_events_of disk) cs).
Proof.
  induction cs as [|c cs IH]; [reflexivity|].
  cbn [map concat]. rewrite fs_events_app, fs_events_events_of, IH. reflexivity.
Qed.

Lemma fs_events_sections (secs : list (string * list check)) :
  fs_events (concat (map (section_events disk re_search) secs))
  = concat (map (fs_events_of disk) (concat (map snd secs))).
Proof.
  induction secs as [|[title cs] secs IH]; [reflexivity|].
  cbn [map concat snd]. rewrite fs_events_app, map_app, concat_app, IH.
  unfold section_events. cbn [fst snd].
  change (fs_events (Print (nl +:+ title) :: ?l)) with (fs_events l).
  rewrite fs_events_checks. reflexivity.
Qed.

Lemma opened_events_of (c : check) :
  opened (events_of disk re_search c)
  = List.filter (path_exists disk) (content_paths [c]).
Proof.
  destruct c as [path requirements description | path description].
  - rewrite events_of_content. unfold content_report.
    change (content_paths [ContentCheck path requirements description])
      with [path].
    cbn [List.filter].
    destruct (disk !! path) as [nd|] eqn:Hnd.
    + assert (Hex : path_exists disk path = true)
        by (unfold path_exists; apply bool_decide_eq_true_2; rewrite Hnd; eauto).
      rewrite Hex.
      destruct (read_and_match re_search nd requirements) as [lines|e];
        [|reflexivity].
      cbn [snd]. rewrite opened_app, opened_prints. reflexivity.
    + assert (Hex : path_exists disk path = false)
        by (unfold path_exists; apply bool_decide_eq_false_2; rewrite Hnd;
            intros [? ?]; discriminate).
      rewrite Hex. reflexivity.
  - rewrite events_of_existence. unfold existence_report.
    destruct (path_exists disk path); reflexivity.
Qed.

Lemma content_paths_cons (c : check) (cs : list check) :
  content_paths (c :: cs) = content_paths [c] ++ content_paths cs.
Proof. destruct c; reflexivity. Qed.

Lemma content_paths_app (cs1 cs2 : list check) :
  content_paths (cs1 ++ cs2) = content_paths cs1 ++ content_paths cs2.
Proof. unfold content_paths. apply omap_app. Qed.

Lemma opened_checks (cs : list check) :
  opened (concat (map (events_of disk re_search) cs))
  = List.filter (path_exists disk) (content_paths cs).
Proof.
  induction cs as [|c cs IH]; [reflexivity|].
  cbn [map concat].
  rewrite opened_app, opened_events_of, IH, (content_paths_cons c cs), List.filter_app.
  reflexivity.
Qed.

Lemma opened_sections (secs : list (string * list check)) :
  opened (concat (map (section_events disk re_search) secs))
  = List.filter (path_exists disk) (content_paths (concat (map snd secs))).
Proof.
  induction secs as [|[title cs] secs IH]; [reflexivity|].
  cbn [map concat snd]. rewrite opened_app, content_paths_app, List.filter_app, IH.
  unfold section_events. cbn [fst snd].
  change (opened (Print (nl +:+ title) :: ?l)) with (opened l).
  rewrite opened_checks. reflexivity.
Qed.

(** X4.  The calls of [main] to the file system are the test of
    [Cargo.toml] and then, at a project root, the calls of the eleven
    checks in order: every check tests its path, and a check of content
    whose path exists opens that path right after the test.  So [main]
    opens the files of its eight checks of content that exist, each one
    once, after the test of its existence and in the order of the
    checks, and no other file: not a path that is missing, not a file of
    the checks of existence, and nothing at all outside a project root. *)
Theorem main_opens_existing_content_files (tr : list event) :
  fs_events (main disk re_search tr).2
  = fs_events tr
    ++ Probe "Cargo.toml"
       :: (if at_project_root disk
           then concat (map (fs_events_of disk) checklist)
           else [])
  /\ opened (main disk re_search tr).2
     = opened tr
       ++ (if at_project_root disk
           then List.filter (path_exists disk) (content_paths checklist)
           else [])
  /\ content_paths checklist
     = [ "Cargo.toml"; "src/config/mod.rs"; "src/network/mod.rs";
         "src/network/connection.rs"; "src/network/manager.rs";
         "doc/technical-specification.md"; "doc/api-reference.md";
         "doc/architecture.md" ].
Proof.
  split; [|split; [|reflexivity]].
  - rewrite main_run.
    destruct (at_project_root disk).
    + assert (Hbody : fs_events (prelude_events ++ body_events disk re_search)
                      = Probe "Cargo.toml" :: concat (map (fs_events_of disk) checklist)).
      { rewrite fs_events_app. unfold body_events. rewrite fs_events_sections.
        reflexivity. }
      destruct (forallb _ checklist); cbn [snd];
        rewrite !app_assoc, (fs_events_app _ (_ :: _)), <- app_assoc,
          (fs_events_app tr), Hbody.
      * change (Print ?x :: map Print ?l) with (map Print (x :: l)).
        rewrite fs_events_prints, app_nil_r. reflexivity.
      * cbn. rewrite app_nil_r. reflexivity.
    + cbn [snd]. rewrite !fs_events_app, fs_events_prints. reflexivity.
  - rewrite main_run.
    destruct (at_project_root disk).
    + assert (Hbody : opened (prelude_events ++ body_events disk re_search)
                      = List.filter (path_exists disk) (content_paths checklist)).
      { rewrite opened_app. unfold body_events. rewrite opened_sections.
        reflexivity. }
      destruct (forallb _ checklist); cbn [snd];
        rewrite !app_assoc, (opened_app _ (_ :: _)), <- app_assoc, (opened_app tr), Hbody.
      * change (Print ?x :: map Print ?l) with (map Print (x :: l)).
        rewrite opened_prints, app_nil_r. reflexivity.
      * cbn. rewrite app_nil_r. reflexivity.
    + cbn [snd]. rewrite !opened_app, opened_prints. reflexivity.
Qed.

End Opens.

(** ** A run depends on the eleven paths of its checks alone *)

Section Local.

Variables disk disk' : gmap string node.
Variable re_search : string -> string -> search_result.

Lemma run_check_local (c : check) :
  disk !! check_path c = disk' !! check_path c ->
  passes disk re_search c = passes disk' re_search c
  /\ events_of disk re_search c = events_of disk' re_search c.
Proof.
  destruct c as [path requirements description | path description];
    cbn [check_path]; intros Hsame.
  - rewrite !passes_content, !events_of_content. unfold content_report.
    rewrite Hsame. split; reflexivity.
  - rewrite !passes_existence, !events_of_existence.
    unfold existence_report, path_exists. rewrite Hsame. split; reflexivity.
Qed.

Lemma checks_local (cs : list check) :
  Forall (fun c => disk !! check_path c = disk' !! check_path c) cs ->
  forallb (passes disk re_search) cs = forallb (passes disk' re_search) cs
  /\ concat (map (events_of disk re_search) cs)
     = concat (map (events_of disk' re_search) cs).
Proof.
  induction 1 as [|c cs Hc _ [IHp IHe]]; [split; reflexivity|].
  destruct (run_check_local c Hc) as [Hp He].
  cbn [forallb map concat]. rewrite Hp, He, IHp, IHe. split; reflexivity.
Qed.

Lemma sections_local (secs : list (string * list check)) :
  Forall (fun c => disk !! check_path c = disk' !! check_path c)
    (concat (map snd secs)) ->
  concat (map (section_events disk re_search) secs)
  = concat (map (section_events disk' re_search) secs).
Proof.
  induction secs as [|[title cs] secs IH]; [reflexivity|].
  cbn [map concat snd]. rewrite Forall_app. intros [Hcs Hrest].
  rewrite (IH Hrest). unfold section_events. cbn [fst snd].
  rewrite (proj2 (checks_local cs Hcs)). reflexivity.
Qed.

(** X5.  Two directories that hold the same thing at the path of each of the
    eleven checks give the same run: the same exit, the same trace.
    Whatever else the directories hold is not looked at. *)
Theorem main_depends_on_checked_paths (tr : list event) :
  Forall (fun c => disk !! check_path c = disk' !! check_path c) checklist ->
  main disk re_search tr = main disk' re_search tr.
Proof.
  intros Hsame. rewrite !main_run.
  assert (Hroot : at_project_root disk = at_project_root disk').
  { unfold at_project_root, path_exists.
    apply Forall_cons in Hsame as [Hcargo _]. cbn [check_path] in Hcargo.
    rewrite Hcargo. reflexivity. }
  rewrite Hroot, (proj1 (checks_local checklist Hsame)).
  unfold body_events. rewrite (sections_local sections Hsame). reflexivity.
Qed.

End Local.

(** A README next to the migrated project changes nothing. *)
Lemma main_depends_on_checked_paths_witness :
  main migrated Re.search [] = main with_readme Re.search [].
Proof.
  apply (main_depends_on_checked_paths migrated with_readme Re.search []).
  repeat (constructor; [vm_compute; reflexivity|]). constructor.
Defined.

(** ** What the exit status 0 says of the directory *)

Lemma checklist_plain : forallb plain checklist = true.
Proof. vm_compute. reflexivity. Qed.

Section Met.

Variable disk : gmap string node.
Variable re_search : string -> string -> search_result.

Lemma first_bad_all_found (content : string) (requirements : list (string * string)) :
  Forall (fun req : string * string => re_search req.1 content = Found) requirements ->
  first_bad re_search content requirements = None
  /\ forallb (str_contains "✅") (map (result_line re_search content) requirements)
     = true.
Proof.
  induction 1 as [|[pattern desc] rest Hreq _ [IHb IHl]]; [split; reflexivity|].
  cbn [fst] in Hreq. cbn [first_bad map forallb]. unfold result_line at 1.
  cbn [fst snd]. rewrite Hreq, IHb, IHl. split; reflexivity.
Qed.

Lemma passes_met (c : check) :
  plain c = true -> (passes disk re_search c = true <-> met disk re_search c).
Proof.
  destruct c as [path requirements description | path description];
    cbn [plain met]; intros Hplain.
  - split.
    + intros Hpass.
      apply (true_only_if_all_found disk re_search path requirements description []).
      * apply forallb_true_Forall in Hplain.
        eapply Forall_impl; [exact Hplain|].
        intros req Hreq. cbn beta in Hreq. apply negb_true_iff in Hreq. exact Hreq.
      * change (check_file_content disk re_search path requirements description [])
          with (run_check disk re_search
                  (ContentCheck path requirements description) []).
        rewrite run_check_run, Hpass. reflexivity.
    + intros (content & Hfile & Hfound).
      rewrite passes_content. unfold content_report. rewrite Hfile.
      cbn [read_and_match].
      destruct (first_bad_all_found content requirements Hfound) as [-> Hlines].
      exact Hlines.
  - rewrite passes_existence. unfold path_exists.
    split; [apply bool_decide_eq_true_1 | apply bool_decide_eq_true_2].
Qed.

Lemma all_pass_all_met (cs : list check) :
  forallb plain cs = true ->
  (forallb (passes disk re_search) cs = true <-> Forall (met disk re_search) cs).
Proof.
  induction cs as [|c cs IH]; cbn [forallb]; intros Hplain.
  - split; [constructor | reflexivity].
  - apply andb_true_iff in Hplain as [Hc Hcs].
    rewrite andb_true_iff, Forall_cons, (passes_met c Hc), (IH Hcs). reflexivity.
Qed.

(** X6.  The exit status is 0 exactly when each of the eight files is read
    with all its patterns found in it, and the three other paths exist.
    No description in the tables of [main] holds the mark [✅], so that a
    check of [main] that passes has found every one of its patterns. *)
Theorem exit_0_iff_all_met (tr : list event) :
  exit_code (main disk re_search tr).1 = 0
  <-> Forall (met disk re_search) checklist.
Proof.
  rewrite main_exit_code, <- forallb_passes_outcomes,
    <- (all_pass_all_met checklist checklist_plain).
  destruct (forallb (passes disk re_search) checklist) eqn:Hall.
  - assert (Hroot : at_project_root disk = true).
    { apply (all_pass_all_met checklist checklist_plain) in Hall.
      apply Forall_cons in Hall as [(content & Hfile & _) _].
      unfold at_project_root, path_exists. apply bool_decide_eq_true_2.
      rewrite Hfile. eauto. }
    rewrite Hroot. split; reflexivity.
  - rewrite andb_false_r. split; discriminate.
Qed.

End Met.

(** ** The report of each check inside the report of the run *)

Section Inside.

Variable disk : gmap string node.
Variable re_search : string -> string -> search_result.

Lemma checks_split (c : check) (cs : list check) :
  c ∈ cs ->
  exists before after,
    concat (map (events_of disk re_search) cs)
    = before ++ events_of disk re_search c ++ after.
Proof.
  intros Hin. apply list_elem_of_split in Hin as (l1 & l2 & ->).
  exists (concat (map (events_of disk re_search) l1)),
         (concat (map (events_of disk re_search) l2)).
  rewrite map_app, concat_app. reflexivity.
Qed.

Lemma sections_split (c : check) (secs : list (string * list check)) :
  c ∈ concat (map snd secs) ->
  exists before after,
    concat (map (section_events disk re_search) secs)
    = before ++ events_of disk re_search c ++ after.
Proof.
  induction secs as [|[title cs] secs IH]; cbn [map concat snd].
  - intros Hin. apply elem_of_nil in Hin. destruct Hin.
  - intros Hin. apply elem_of_app in Hin as [Hin | Hin].
    + destruct (checks_split c cs Hin) as (before & after & Hsplit).
      exists (Print (nl +:+ title) :: before),
             (after ++ concat (map (section_events disk re_search) secs)).
      unfold section_events. cbn [fst snd]. rewrite Hsplit.
      norm_trace. reflexivity.
    + destruct (IH Hin) as (before & after & Hsplit).
      exists (section_events disk re_search (title, cs) ++ before), after.
      rewrite Hsplit. norm_trace. reflexivity.
Qed.

Lemma forallb_passes_false (c : check) (cs : list check) :
  c ∈ cs -> passes disk re_search c = false ->
  forallb (passes disk re_search) cs = false.
Proof.
  intros Hin Hfalse. apply forallb_false_Exists.
  apply Exists_exists. exists c. split; assumption.
Qed.

(** X7.  At a project root, a check of the list whose path does not
    exist does not stop the run.  The trace of [main] is the one of a
    run that fails: the title, the seven sections with the report of
    each of their checks, the rule and the warning; the path of each of
    the eleven checks is tested, in order; the report of the check is
    its one line of failure, with the path in it, and this line is in
    the output; the exit status is 1. *)
Theorem missing_file_is_reported (c : check) (tr : list event) :
  at_project_root disk = true ->
  c ∈ checklist ->
  path_exists disk (check_path c) = false ->
  main disk re_search tr
  = (Exit 1,
     tr ++ prelude_events ++ body_events disk re_search
        ++ [Print (nl +:+ str_repeat "=" 40); Print warning_line])
  /\ exit_code (main disk re_search tr).1 = 1
  /\ probed (main disk re_search tr).2
     = probed tr ++ "Cargo.toml" :: map check_path checklist
  /\ events_of disk re_search c = [Probe (check_path c); Print (missing_line c)]
  /\ (exists before after,
        body_events disk re_search
        = before ++ [Probe (check_path c); Print (missing_line c)] ++ after)
  /\ missing_line c ∈ stdout (main disk re_search tr).2.
Proof.
  intros Hroot Hin Habsent.
  assert (Hc : passes disk re_search c = false
               /\ events_of disk re_search c
                  = [Probe (check_path c); Print (missing_line c)]).
  { destruct c as [path requirements description | path description];
      cbn [check_path missing_line] in *.
    - rewrite passes_content, events_of_content. unfold content_report.
      unfold path_exists in Habsent. apply bool_decide_eq_false_1 in Habsent.
      destruct (disk !! path) as [nd|]; [|split; reflexivity].
      exfalso. apply Habsent. eauto.
    - rewrite passes_existence, events_of_existence. unfold existence_report.
      rewrite Habsent. split; reflexivity. }
  destruct Hc as [Hfalse Hevents].
  destruct (sections_split c sections Hin) as (before & after & Hsplit).
  fold (body_events disk re_search) in Hsplit. rewrite Hevents in Hsplit.
  assert (Hrun : main disk re_search tr
    = (Exit 1,
       tr ++ prelude_events ++ body_events disk re_search
          ++ [Print (nl +:+ str_repeat "=" 40); Print warning_line])).
  { rewrite main_run, Hroot, (forallb_passes_false c checklist Hin Hfalse).
    reflexivity. }
  split; [exact Hrun|]. split; [rewrite Hrun; reflexivity|].
  split; [apply probed_main; exact Hroot|].
  split; [exact Hevents|]. split; [exists before, after; exact Hsplit|].
  rewrite Hrun. cbn [snd]. rewrite Hsplit, !stdout_app.
  apply elem_of_app. right. apply elem_of_app. right.
  apply elem_of_app. left. apply elem_of_app. right.
  apply elem_of_app. left. cbn. apply elem_of_cons. left. reflexivity.
Qed.

(** X8.  A manifest that exists and cannot be read — a directory named
    [Cargo.toml], a file without the permission to read, bytes that are
    not UTF-8 — passes the precondition.  The first check then reports
    the failure to read with the message of the error; the six sections
    that follow are run as on any other directory, the path of each of
    the eleven checks is tested, and the run ends with the warning and
    the exit status 1. *)
Theorem unreadable_manifest (msg : string) (tr : list event) :
  disk !! "Cargo.toml" = Some (OpenFails msg)
  \/ disk !! "Cargo.toml" = Some (DecodeFails msg) ->
  at_project_root disk = true
  /\ exit_code (main disk re_search tr).1 = 1
  /\ main disk re_search tr
     = (Exit 1,
        tr ++ map Print title_lines
           ++ [Probe "Cargo.toml"; Print (nl +:+ "1. 检查依赖更新");
               Probe "Cargo.toml"; Open "Cargo.toml";
               Print ("❌ " +:+ "Cargo.toml 依赖配置" +:+ ": 读取文件失败 - " +:+ msg)]
           ++ concat (map (section_events disk re_search) (tl sections))
           ++ [Print (nl +:+ str_repeat "=" 40); Print warning_line])
  /\ probed (main disk re_search tr).2
     = probed tr ++ "Cargo.toml" :: map check_path checklist
  /\ map fst (tl sections)
     = [ "2. 检查配置结构更新"; "3. 检查网络错误类型更新"; "4. 检查连接结构更新";
         "5. 检查网络管理器更新"; "6. 检查文档更新"; "7. 检查测试和示例文件" ].
Proof.
  intros Hnode.
  assert (Hroot : at_project_root disk = true).
  { unfold at_project_root, path_exists. apply bool_decide_eq_true_2.
    destruct Hnode as [-> | ->]; eauto. }
  assert (Hreport :
    content_report disk re_search "Cargo.toml" cargo_patterns "Cargo.toml 依赖配置"
    = (false,
       [Probe "Cargo.toml"; Open "Cargo.toml";
        Print ("❌ " +:+ "Cargo.toml 依赖配置" +:+ ": 读取文件失败 - " +:+ msg)])).
  { unfold content_report. destruct Hnode as [-> | ->]; reflexivity. }
  assert (Hfalse : forallb (passes disk re_search) checklist = false).
  { unfold checklist, sections. cbn [map snd concat app forallb].
    rewrite passes_content, Hreport. reflexivity. }
  split; [exact Hroot|]. split.
  { rewrite main_run, Hroot, Hfalse. reflexivity. }
  split; [|split; [apply probed_main; exact Hroot | reflexivity]].
  rewrite main_run, Hroot, Hfalse. f_equal.
  change (body_events disk re_search)
    with (section_events disk re_search
            ("1. 检查依赖更新",
             [ContentCheck "Cargo.toml" cargo_patterns "Cargo.toml 依赖配置"])
          ++ concat (map (section_events disk re_search) (tl sections))).
  unfold section_events at 1. cbn [fst snd map concat].
  rewrite events_of_content, Hreport. cbn [snd].
  unfold prelude_events. norm_trace. reflexivity.
Qed.

(** X9.  The last line of the output tells the status: the third of the next
    steps when the exit status is 0, the warning after a check that
    failed, the line of the precondition outside a project root.  The
    three lines differ from one another. *)
Theorem last_line_tells_status (tr : list event) :
  last (stdout (main disk re_search tr).2)
  = Some (if exit_code (main disk re_search tr).1 =? 0
          then "3. 运行 'cargo run --example libp2p_network_demo' 查看演示"
          else if at_project_root disk then warning_line
          else precondition_error)
  /\ (exit_code (main disk re_search tr).1 = 0
      <-> last (stdout (main disk re_search tr).2)
          = Some "3. 运行 'cargo run --example libp2p_network_demo' 查看演示").
Proof.
  assert (Hlast :
    last (stdout (main disk re_search tr).2)
    = Some (if exit_code (main disk re_search tr).1 =? 0
            then "3. 运行 'cargo run --example libp2p_network_demo' 查看演示"
            else if at_project_root disk then warning_line
            else precondition_error)).
  { rewrite main_run.
    destruct (at_project_root disk); [destruct (forallb _ checklist)|];
      cbn [fst snd exit_code Z.eqb].
    - change (Print ?x :: map Print success_banner)
        with (map Print (removelast (x :: success_banner))
              ++ [Print "3. 运行 'cargo run --example libp2p_network_demo' 查看演示"]).
      rewrite !app_assoc, stdout_app. apply last_snoc.
    - change [Print (nl +:+ str_repeat "=" 40); Print warning_line]
        with ([Print (nl +:+ str_repeat "=" 40)] ++ [Print warning_line]).
      rewrite !app_assoc, stdout_app. apply last_snoc.
    - change [Probe "Cargo.toml"; Print precondition_error]
        with ([Probe "Cargo.toml"] ++ [Print precondition_error]).
      rewrite !app_assoc, stdout_app. apply last_snoc. }
  split; [exact Hlast|]. rewrite Hlast, main_exit_code.
  destruct (at_project_root disk), (forallb id (outcomes disk re_search));
    cbn; split; intros H; try reflexivity; try discriminate H;
    exfalso; revert H; vm_compute; intros [= H].
Qed.

End Inside.

(** The project without its notes: the line of the missing file. *)
Lemma missing_file_is_reported_witness :
  exit_code (main no_notes Re.search []).1 = 1.
Proof.
  apply (missing_file_is_reported no_notes Re.search
           (ExistenceCheck "NETWORK_MIGRATION.md" "测试/示例文件") []).
  - vm_compute. reflexivity.
  - apply list_elem_of_lookup. exists 10%nat. vm_compute. reflexivity.
  - vm_compute. reflexivity.
Defined.

(** The project with a directory named [Cargo.toml]. *)
Lemma unreadable_manifest_witness :
  at_project_root manifest_is_directory = true
  /\ exit_code (main manifest_is_directory Re.search []).1 = 1.
Proof.
  destruct (unreadable_manifest manifest_is_directory Re.search
              "[Errno 21] Is a directory: 'Cargo.toml'" []) as (Hroot & Hexit & _).
  - left. vm_compute. reflexivity.
  - split; [exact Hroot | exact Hexit].
Defined.
